(** * mcp-atlassian CDK stacks: a shallow embedding

    The repository holds two CDK stack definitions, both a class named
    [McpAtlassianStack] whose constructor adds constructs to the stack scope:

    - [src/cdk/lib/mcp-atlassian-stack.ts]: the service is reachable through
      service discovery only and reads its credentials from a Secrets Manager
      secret (module [PrivateStack] below);
    - [src/unnamed/part_000]: the service sits behind an internet-facing
      application load balancer and receives credentials with each request
      (module [AlbStack] below).

    A constructor is a sequence of calls that create constructs under the
    stack ([new X(this, id, props)]) or mutate one created earlier
    ([sg.addIngressRule], [secret.grantRead], [taskDef.addContainer], ...).
    It is embedded as a program in a state-and-error monad over the scope. *)

From Stdlib Require Import NArith Ascii String DecimalString.
From stdpp Require Import gmap strings list.

Local Open Scope string_scope.
Local Open Scope N_scope.

(** ** JavaScript primitives used by the constructors *)

Module JS.

(** [Number.prototype.toString()] on a non-negative integer below
    [1e21], where JavaScript writes every digit (from there on it writes an
    exponent); the stacks print the port only. *)
Definition toString (n : N) : string :=
  NilEmpty.string_of_uint (N.to_uint n).

(** Truthiness of a [string | null | undefined] value, as tested by
    [if (x)]: [null], [undefined] and the empty string are falsy. *)
Definition truthy (x : option string) : bool :=
  match x with
  | None => false
  | Some EmptyString => false
  | Some (String _ _) => true
  end.

(** The nullish coalescing operator [x ?? d]: only [null] and [undefined]
    are replaced, an empty string is kept. *)
Definition nullish (x : option string) (d : string) : string :=
  match x with
  | None => d
  | Some s => s
  end.

Definition hexDigit (n : N) : ascii :=
  ascii_of_N (if n <? 10 then 48 + n else 87 + n).

(** The escape [JSON.stringify] writes for one character of a string. *)
Definition escapeChar (c : ascii) : string :=
  let n := N_of_ascii c in
  if n =? 34 then String "\"%char (String c EmptyString)
  else if n =? 92 then String "\"%char (String "\"%char EmptyString)
  else if n =? 8 then "\b"
  else if n =? 9 then "\t"
  else if n =? 10 then "\n"
  else if n =? 12 then "\f"
  else if n =? 13 then "\r"
  else if n <? 32 then
    "\u00" +:+ String (hexDigit (n / 16)) (String (hexDigit (n mod 16)) EmptyString)
  else String c EmptyString.

Fixpoint escape (s : string) : string :=
  match s with
  | EmptyString => EmptyString
  | String c r => escapeChar c +:+ escape r
  end.

Definition dquote : string := String (ascii_of_N 34) EmptyString.

Definition quoted (s : string) : string := dquote +:+ escape s +:+ dquote.

Fixpoint members (kvs : list (string * string)) : string :=
  match kvs with
  | [] => EmptyString
  | [(k, v)] => quoted k +:+ ":" +:+ quoted v
  | (k, v) :: rest => quoted k +:+ ":" +:+ quoted v +:+ "," +:+ members rest
  end.

(** [JSON.stringify] on an object literal whose values are strings and
    whose keys are distinct and not integer-like, as in the stack: the
    members are then written in the order of the literal. (JavaScript puts
    integer-like keys first and keeps one member per key.) *)
Definition JSON_stringify (kvs : list (string * string)) : string :=
  "{" +:+ members kvs +:+ "}".

End JS.

(** ** Values that may hold deploy-time tokens *)

(** A string fragment is literal text or a token: an attribute of a
    construct that the provider assigns at deployment ([secret.secretArn],
    [alb.loadBalancerDnsName]). A value is the fragments of a template
    literal in order. *)
Inductive Fragment :=
| Lit (text : string)
| Tok (construct attribute : string).

Definition Value := list Fragment.

Inductive Duration := seconds (n : N).

Inductive RemovalPolicy := RETAIN | DESTROY.

(** [path.join(__dirname, rel)]. *)
Inductive Path :=
| __dirname
| path_join (base : Path) (rel : string).

(** ** Construct properties, one module per CDK namespace *)

Module ec2.

Inductive SubnetType := PUBLIC | PRIVATE_WITH_EGRESS | PRIVATE_ISOLATED.

Record SubnetConfiguration := {
  cidrMask : N;
  name : string;
  subnetType : SubnetType }.

(** [new ec2.Vpc(this, id, props)]; [ipAddresses] holds the argument of
    [ec2.IpAddresses.cidr]. *)
Record VpcProps := {
  vpcName : string;
  ipAddresses : string;
  maxAzs : N;
  natGateways : N;
  subnetConfiguration : list SubnetConfiguration }.

(** The options of [ec2.Vpc.fromLookup]. *)
Record VpcLookupOptions := { lookupVpcName : string }.

(** A peer of a rule: [ec2.Peer.ipv4(cidrIp)], or another construct.
    The library refuses a [cidrIp] that is not shaped [d.d.d.d/n]
    ([peerIpv4Accepts] below) by throwing; the constructors here carry no
    such error path, so what is proved of a specification is proved for the
    values of [allowedCidr] the library accepts. *)
Inductive Peer :=
| ipv4 (cidrIp : string)
| connectable (construct : string).

Inductive Port := tcp (port : N).

Record IngressRule := {
  peer : Peer;
  connection : Port;
  ruleDescription : string }.

(** A security group: its props and the rules added to it afterwards. *)
Record SecurityGroup := {
  securityGroupName : string;
  description : string;
  vpc : string;
  ingressRules : list IngressRule }.

Record SubnetSelection := { selectSubnetType : SubnetType }.

End ec2.

Module secretsmanager.

Record SecretStringGenerator := {
  secretStringTemplate : string;
  generateStringKey : string }.

Record SecretProps := {
  secretName : string;
  description : string;
  generateSecretString : SecretStringGenerator }.

End secretsmanager.

Module ecr.

Inductive TagStatus := ANY | TAGGED | UNTAGGED.

Record LifecycleRule := {
  tagStatus : TagStatus;
  description : string;
  maxImageCount : N }.

Record RepositoryProps := {
  repositoryName : string;
  removalPolicy : RemovalPolicy;
  imageScanOnPush : bool;
  lifecycleRules : list LifecycleRule }.

End ecr.

Module assets.

Inductive Platform := LINUX_AMD64 | LINUX_ARM64.

Record DockerImageAssetProps := {
  directory : Path;
  file : string;
  platform : Platform;
  exclude : list string }.

End assets.

Module logs.

Inductive RetentionDays := ONE_WEEK | TWO_WEEKS | ONE_MONTH.

Record LogGroupProps := {
  logGroupName : string;
  removalPolicy : RemovalPolicy;
  retention : RetentionDays }.

End logs.

Module iam.

Inductive Principal := ServicePrincipal (service : string).

Inductive Grant := GrantRead (resource : string).

(** A role: its props and the grants made to it afterwards. *)
Record Role := {
  assumedBy : Principal;
  managedPolicies : list string;
  grants : list Grant }.

End iam.


Module ecs.

Inductive ContainerInsights := ENABLED | DISABLED | ENHANCED.

Record ClusterProps := {
  clusterName : string;
  vpc : string;
  enableFargateCapacityProviders : bool;
  containerInsightsV2 : ContainerInsights }.

Record CloudMapNamespaceOptions := {
  namespaceName : string;
  namespaceVpc : string }.

(** A cluster: its props and the namespace added by
    [addDefaultCloudMapNamespace]. *)
Record Cluster := {
  clusterProps : ClusterProps;
  defaultCloudMapNamespace : option CloudMapNamespaceOptions }.

Inductive OperatingSystemFamily := LINUX | WINDOWS_SERVER_2022_CORE.

Inductive CpuArchitecture := X86_64 | ARM64.

Record RuntimePlatform := {
  operatingSystemFamily : OperatingSystemFamily;
  cpuArchitecture : CpuArchitecture }.

Inductive Protocol := TCP | UDP.

Record PortMapping := {
  containerPort : N;
  protocol : Protocol }.

Inductive ContainerImage := fromDockerImageAsset (asset : string).

Record AwsLogDriverProps := {
  streamPrefix : string;
  logGroup : string }.

Inductive LogDriver := awsLogs (props : AwsLogDriverProps).

(** [ecs.Secret.fromSecretsManager(secret, field)]. *)
Inductive Secret := fromSecretsManager (secret field : string).

Record HealthCheck := {
  command : list string;
  interval : Duration;
  timeout : Duration;
  retries : N;
  startPeriod : Duration }.

(** The options of [taskDef.addContainer]; [secrets] and [environment]
    are [None] where the source leaves the key out. *)
Record ContainerDefinitionOptions := {
  image : ContainerImage;
  containerName : string;
  logging : LogDriver;
  portMappings : list PortMapping;
  secrets : option (list (string * Secret));
  environment : option (list (string * string));
  containerCommand : list string;
  healthCheck : HealthCheck }.

(** A task definition: its props and the containers added to it. *)
Record FargateTaskDefinition := {
  memoryLimitMiB : N;
  cpu : N;
  executionRole : string;
  taskRole : string;
  runtimePlatform : RuntimePlatform;
  containers : list (string * ContainerDefinitionOptions) }.

Record DeploymentCircuitBreaker := {
  enable : bool;
  rollback : bool }.

Record CloudMapOptions := { cloudMapName : string }.

(** A Fargate service: its props and the registration made by
    [enableCloudMap]. Neither stack passes [assignPublicIp]; the key is kept
    to record that it is left out. *)
Record FargateService := {
  cluster : string;
  serviceName : string;
  taskDefinition : string;
  desiredCount : N;
  securityGroups : list string;
  vpcSubnets : ec2.SubnetSelection;
  assignPublicIp : option bool;
  enableExecuteCommand : bool;
  circuitBreaker : option DeploymentCircuitBreaker;
  cloudMap : option CloudMapOptions }.

End ecs.

Module elbv2.

Inductive ApplicationProtocol := HTTP | HTTPS.

Record HealthCheck := {
  path : string;
  interval : Duration;
  healthyThresholdCount : N;
  unhealthyThresholdCount : N }.

(** The props of [listener.addTargets]. *)
Record AddApplicationTargetsProps := {
  targetPort : N;
  targetProtocol : ApplicationProtocol;
  targets : list string;
  healthCheck : HealthCheck }.

(** A listener: the props of [alb.addListener] and the target groups
    added to it. *)
Record Listener := {
  port : N;
  protocol : ApplicationProtocol;
  targetGroups : list (string * AddApplicationTargetsProps) }.

(** A load balancer: its props, its listeners, and the ingress rules of
    the security group it creates for itself. *)
Record ApplicationLoadBalancer := {
  loadBalancerName : string;
  vpc : string;
  internetFacing : bool;
  listeners : list (string * Listener);
  ownIngressRules : list ec2.IngressRule }.

End elbv2.

Module cdk.

Record CfnOutputProps := {
  value : Value;
  description : string }.

End cdk.

(** ** The construct tree of a stack *)

Inductive Construct :=
| Vpc (props : ec2.VpcProps)
| LookedUpVpc (options : ec2.VpcLookupOptions)
| Secret (props : secretsmanager.SecretProps)
| Repository (props : ecr.RepositoryProps)
| DockerImageAsset (props : assets.DockerImageAssetProps)
| Cluster (c : ecs.Cluster)
| SecurityGroup (sg : ec2.SecurityGroup)
| LogGroup (props : logs.LogGroupProps)
| Role (r : iam.Role)
| FargateTaskDefinition (td : ecs.FargateTaskDefinition)
| FargateService (svc : ecs.FargateService)
| ApplicationLoadBalancer (lb : elbv2.ApplicationLoadBalancer)
| CfnOutput (props : cdk.CfnOutputProps).

(** What a constructor asks of the environment it runs in. Two are
    questions to the context provider of the account and region the stack
    is deployed to ([Vpc.fromLookup] resolves a VPC by name there, and
    [new ec2.Vpc] with [maxAzs] asks for the availability zones; the app
    entry passes [CDK_DEFAULT_ACCOUNT] and [CDK_DEFAULT_REGION], which the
    CLI sets); the third is the read of the build context from the file
    system that [DockerImageAsset] makes to fingerprint it. *)
Inductive EnvironmentAccess :=
| VpcProvider (vpcName : string)
| AvailabilityZoneProvider
| ReadDirectory (directory : Path).

(** The stack scope: the context values it was started with
    ([cdk.json] and [-c key=value]), its children by construct id in creation
    order, and what it asked of the environment, in order. *)
Record Scope := {
  context : gmap string string;
  children : list (string * Construct);
  lookups : list EnvironmentAccess }.

Definition emptyScope (ctx : gmap string string) : Scope :=
  {| context := ctx; children := []; lookups := [] |}.

Inductive SynthError :=
| DuplicateId (id : string)
| NotFound (id : string)
| WrongKind (id : string)
| NoContainerPort (taskDefinition : string).

Inductive Outcome (A : Type) :=
| Ok (a : A) (s : Scope)
| Err (e : SynthError).

Arguments Ok {A} a s.
Arguments Err {A} e.

(** A constructor body: it reads and extends the scope, or throws. *)
Definition Synth (A : Type) : Type := Scope -> Outcome A.

Definition ret {A} (a : A) : Synth A := fun s => Ok a s.

Definition bind {A B} (m : Synth A) (k : A -> Synth B) : Synth B :=
  fun s => match m s with
           | Ok a s' => k a s'
           | Err e => Err e
           end.

Definition throw {A} (e : SynthError) : Synth A := fun _ => Err e.

Declare Scope synth_scope.
Delimit Scope synth_scope with synth.
Notation "'let*' x ':=' m 'in' k" := (bind m (fun x => k))
  (at level 10, x name, m at level 100, k at level 200) : synth_scope.
Notation "m ';;' k" := (bind m (fun _ => k))
  (at level 100, k at level 200, right associativity) : synth_scope.

Local Open Scope synth_scope.

Fixpoint find (id : string) (cs : list (string * Construct)) : option Construct :=
  match cs with
  | [] => None
  | (i, c) :: rest => if String.eqb i id then Some c else find id rest
  end.

Fixpoint replace (id : string) (c' : Construct) (cs : list (string * Construct))
  : list (string * Construct) :=
  match cs with
  | [] => []
  | (i, c) :: rest =>
      if String.eqb i id then (i, c') :: rest else (i, c) :: replace id c' rest
  end.

(** [this.node.tryGetContext(key)]. *)
Definition tryGetContext (key : string) : Synth (option string) :=
  fun s => Ok (context s !! key) s.

(** [new X(this, id, props)]: a second construct with an id already in the
    scope is refused. The construct is referred to by its id afterwards. *)
Definition construct (id : string) (c : Construct) : Synth string :=
  fun s => match find id (children s) with
           | Some _ => Err (DuplicateId id)
           | None => Ok id {| context := context s;
                              children := children s ++ [(id, c)];
                              lookups := lookups s |}
           end.

Definition getConstruct (id : string) : Synth Construct :=
  fun s => match find id (children s) with
           | Some c => Ok c s
           | None => Err (NotFound id)
           end.

(** A method call on the construct [id] that changes its state. *)
Definition mutate (id : string) (f : Construct -> option Construct) : Synth unit :=
  fun s => match find id (children s) with
           | None => Err (NotFound id)
           | Some c =>
               match f c with
               | None => Err (WrongKind id)
               | Some c' => Ok tt {| context := context s;
                                     children := replace id c' (children s);
                                     lookups := lookups s |}
               end
           end.

Definition reportLookup (q : EnvironmentAccess) : Synth unit :=
  fun s => Ok tt {| context := context s;
                    children := children s;
                    lookups := lookups s ++ [q] |}.

Fixpoint forEach {A} (l : list A) (f : A -> Synth unit) : Synth unit :=
  match l with
  | [] => ret tt
  | x :: rest => f x;; forEach rest f
  end.

(** ** The construct methods the stacks call *)

(** [ec2.Vpc.fromLookup(this, id, options)]: the VPC is not created; the
    scope gets a stand-in for it and a query for the context provider. The
    constructor goes on whatever the provider will answer. (The library
    refuses the call in a stack without account and region; the model is of
    a stack that has both, as the app entry gives it under the CLI.) *)
Definition Vpc_fromLookup (id : string) (options : ec2.VpcLookupOptions)
  : Synth string :=
  reportLookup (VpcProvider (ec2.lookupVpcName options));;
  construct id (LookedUpVpc options).

(** [new ec2.Vpc(this, id, props)]: to spread the subnets over [maxAzs]
    zones the construct asks the context provider for the availability
    zones of the account and region. *)
Definition new_Vpc (id : string) (props : ec2.VpcProps) : Synth string :=
  reportLookup AvailabilityZoneProvider;;
  construct id (Vpc props).

(** [new DockerImageAsset(this, id, props)]: the construct reads the
    build context from the file system to fingerprint it. *)
Definition new_DockerImageAsset (id : string)
    (props : assets.DockerImageAssetProps) : Synth string :=
  reportLookup (ReadDirectory (assets.directory props));;
  construct id (DockerImageAsset props).

Definition samePeer (p q : ec2.Peer) : bool :=
  match p, q with
  | ec2.ipv4 a, ec2.ipv4 b => String.eqb a b
  | ec2.connectable a, ec2.connectable b => String.eqb a b
  | _, _ => false
  end.

Definition samePort (p q : ec2.Port) : bool :=
  match p, q with
  | ec2.tcp a, ec2.tcp b => a =? b
  end.

Definition hasRule (peer : ec2.Peer) (connection : ec2.Port)
    (rules : list ec2.IngressRule) : bool :=
  existsb (fun r => samePeer (ec2.peer r) peer
                    && samePort (ec2.connection r) connection) rules.

(** [sg.addIngressRule(peer, connection, description)]: a rule for a
    peer and connection the group already has a rule for is not added
    again. *)
Definition addIngressRule (sg : string) (peer : ec2.Peer)
    (connection : ec2.Port) (description : string) : Synth unit :=
  mutate sg (fun c =>
    match c with
    | SecurityGroup g =>
        Some (SecurityGroup
          {| ec2.securityGroupName := ec2.securityGroupName g;
             ec2.description := ec2.description g;
             ec2.vpc := ec2.vpc g;
             ec2.ingressRules :=
               if hasRule peer connection (ec2.ingressRules g)
               then ec2.ingressRules g
               else ec2.ingressRules g ++
                 [ {| ec2.peer := peer;
                      ec2.connection := connection;
                      ec2.ruleDescription := description |} ] |})
    | _ => None
    end).

(** [secret.grantRead(role)]. *)
Definition grantRead (secret role : string) : Synth unit :=
  let* target := getConstruct secret in
  match target with
  | Secret _ =>
      mutate role (fun c =>
        match c with
        | Role r =>
            Some (Role
              {| iam.assumedBy := iam.assumedBy r;
                 iam.managedPolicies := iam.managedPolicies r;
                 iam.grants := iam.grants r ++ [iam.GrantRead secret] |})
        | _ => None
        end)
  | _ => throw (WrongKind secret)
  end.

(** [taskDef.addContainer(id, options)]. *)
Definition addContainer (taskDef id : string)
    (options : ecs.ContainerDefinitionOptions) : Synth unit :=
  mutate taskDef (fun c =>
    match c with
    | FargateTaskDefinition td =>
        Some (FargateTaskDefinition
          {| ecs.memoryLimitMiB := ecs.memoryLimitMiB td;
             ecs.cpu := ecs.cpu td;
             ecs.executionRole := ecs.executionRole td;
             ecs.taskRole := ecs.taskRole td;
             ecs.runtimePlatform := ecs.runtimePlatform td;
             ecs.containers := ecs.containers td ++ [(id, options)] |})
    | _ => None
    end).

(** [cluster.addDefaultCloudMapNamespace(options)]. *)
Definition addDefaultCloudMapNamespace (cluster : string)
    (options : ecs.CloudMapNamespaceOptions) : Synth unit :=
  mutate cluster (fun c =>
    match c with
    | Cluster cl =>
        Some (Cluster
          {| ecs.clusterProps := ecs.clusterProps cl;
             ecs.defaultCloudMapNamespace := Some options |})
    | _ => None
    end).

(** [service.enableCloudMap(options)]. *)
Definition enableCloudMap (service : string) (options : ecs.CloudMapOptions)
  : Synth unit :=
  mutate service (fun c =>
    match c with
    | FargateService svc =>
        Some (FargateService
          {| ecs.cluster := ecs.cluster svc;
             ecs.serviceName := ecs.serviceName svc;
             ecs.taskDefinition := ecs.taskDefinition svc;
             ecs.desiredCount := ecs.desiredCount svc;
             ecs.securityGroups := ecs.securityGroups svc;
             ecs.vpcSubnets := ecs.vpcSubnets svc;
             ecs.assignPublicIp := ecs.assignPublicIp svc;
             ecs.enableExecuteCommand := ecs.enableExecuteCommand svc;
             ecs.circuitBreaker := ecs.circuitBreaker svc;
             ecs.cloudMap := Some options |})
    | _ => None
    end).

(** [alb.addListener(id, props)]; the listener is referred to by the pair
    of the load balancer's id and its own. The stack does not pass [open],
    so the listener is open: the load balancer's own security group lets
    every IPv4 address in on the listener port. *)
Definition addListener (alb id : string) (port : N)
    (protocol : elbv2.ApplicationProtocol) : Synth (string * string) :=
  mutate alb (fun c =>
    match c with
    | ApplicationLoadBalancer lb =>
        Some (ApplicationLoadBalancer
          {| elbv2.loadBalancerName := elbv2.loadBalancerName lb;
             elbv2.vpc := elbv2.vpc lb;
             elbv2.internetFacing := elbv2.internetFacing lb;
             elbv2.listeners := elbv2.listeners lb ++
               [ (id, {| elbv2.port := port;
                         elbv2.protocol := protocol;
                         elbv2.targetGroups := [] |}) ];
             elbv2.ownIngressRules := elbv2.ownIngressRules lb ++
               [ {| ec2.peer := ec2.ipv4 "0.0.0.0/0";
                    ec2.connection := ec2.tcp port;
                    ec2.ruleDescription :=
                      "Allow from anyone on port " +:+ JS.toString port |} ]
          |})
    | _ => None
    end);;
  ret (alb, id).

Fixpoint addTargetsTo (listener id : string)
    (props : elbv2.AddApplicationTargetsProps)
    (ls : list (string * elbv2.Listener)) : list (string * elbv2.Listener) :=
  match ls with
  | [] => []
  | (i, l) :: rest =>
      if String.eqb i listener
      then (i, {| elbv2.port := elbv2.port l;
                  elbv2.protocol := elbv2.protocol l;
                  elbv2.targetGroups := elbv2.targetGroups l ++ [(id, props)] |})
           :: rest
      else (i, l) :: addTargetsTo listener id props rest
  end.

(** The port a service is registered under in a target group: the
    first port mapping of the first container of its task definition. *)
Definition defaultContainerPort (td : ecs.FargateTaskDefinition) : option N :=
  match ecs.containers td with
  | c :: _ =>
      match ecs.portMappings c.2 with
      | pm :: _ => Some (ecs.containerPort pm)
      | [] => None
      end
  | [] => None
  end.

(** A service registered as a target lets the load balancer in: each of
    its security groups gets an ingress rule from the load balancer on the
    service's container port. *)
Definition registerTarget (alb service : string) : Synth unit :=
  let* c := getConstruct service in
  match c with
  | FargateService svc =>
      let* t := getConstruct (ecs.taskDefinition svc) in
      match t with
      | FargateTaskDefinition td =>
          match defaultContainerPort td with
          | Some port =>
              forEach (ecs.securityGroups svc) (fun sg =>
                addIngressRule sg (ec2.connectable alb) (ec2.tcp port)
                  "Load balancer to target")
          | None => throw (NoContainerPort (ecs.taskDefinition svc))
          end
      | _ => throw (WrongKind (ecs.taskDefinition svc))
      end
  | _ => throw (WrongKind service)
  end.

(** [listener.addTargets(id, props)]: the target group is added to the
    listener and every target is registered. *)
Definition addTargets (listener : string * string) (id : string)
    (props : elbv2.AddApplicationTargetsProps) : Synth unit :=
  mutate (fst listener) (fun c =>
    match c with
    | ApplicationLoadBalancer lb =>
        Some (ApplicationLoadBalancer
          {| elbv2.loadBalancerName := elbv2.loadBalancerName lb;
             elbv2.vpc := elbv2.vpc lb;
             elbv2.internetFacing := elbv2.internetFacing lb;
             elbv2.listeners :=
               addTargetsTo (snd listener) id props (elbv2.listeners lb);
             elbv2.ownIngressRules := elbv2.ownIngressRules lb |})
    | _ => None
    end);;
  forEach (elbv2.targets props) (registerTarget (fst listener)).

(** [service.connections.allowFrom(other, port, description)]: every
    security group of the service gets an ingress rule whose peer is the
    other construct, unless it has one for that peer and port already. *)
Definition connections_allowFrom (service other : string) (port : ec2.Port)
    (description : string) : Synth unit :=
  let* c := getConstruct service in
  match c with
  | FargateService svc =>
      forEach (ecs.securityGroups svc) (fun sg =>
        addIngressRule sg (ec2.connectable other) port description)
  | _ => throw (WrongKind service)
  end.

(** The value of a [string | null] variable inside the branch where
    [if (x)] has ruled [null] out. *)
Definition narrowed (x : option string) : string :=
  match x with
  | Some s => s
  | None => EmptyString
  end.

(** ** [src/cdk/lib/mcp-atlassian-stack.ts] *)

Module PrivateStack.

Definition MCP_PORT : N := 9000.

Definition McpAtlassianStack : Synth unit :=
  let* existingVpcName := tryGetContext "existingVpcName" in
  let* allowedCidrContext := tryGetContext "allowedCidr" in
  let allowedCidr := JS.nullish allowedCidrContext "10.0.0.0/16" in
  let* vpc :=
    if JS.truthy existingVpcName
    then Vpc_fromLookup "ImportedVpc"
           {| ec2.lookupVpcName := narrowed existingVpcName |}
    else new_Vpc "McpVpc"
           {| ec2.vpcName := "mcp-atlassian-vpc";
              ec2.ipAddresses := "10.1.0.0/16";
              ec2.maxAzs := 2;
              ec2.natGateways := 1;
              ec2.subnetConfiguration :=
                [ {| ec2.cidrMask := 24;
                     ec2.name := "mcp-public";
                     ec2.subnetType := ec2.PUBLIC |};
                  {| ec2.cidrMask := 24;
                     ec2.name := "mcp-private";
                     ec2.subnetType := ec2.PRIVATE_WITH_EGRESS |} ] |} in
  let* atlassianSecret := construct "AtlassianCredentials" (Secret
    {| secretsmanager.secretName := "mcp-atlassian/credentials";
       secretsmanager.description :=
         "Atlassian API credentials for mcp-atlassian server";
       secretsmanager.generateSecretString :=
         {| secretsmanager.secretStringTemplate := JS.JSON_stringify
              [ ("JIRA_URL", "https://your-domain.atlassian.net");
                ("JIRA_USERNAME", "user@company.com");
                ("JIRA_API_TOKEN", "CHANGE_ME");
                ("CONFLUENCE_URL", "https://your-domain.atlassian.net/wiki");
                ("CONFLUENCE_USERNAME", "user@company.com");
                ("CONFLUENCE_API_TOKEN", "CHANGE_ME") ];
            secretsmanager.generateStringKey := "_rotation_placeholder" |} |}) in
  let* ecrRepo := construct "McpAtlassianRepo" (Repository
    {| ecr.repositoryName := "mcp-atlassian";
       ecr.removalPolicy := RETAIN;
       ecr.imageScanOnPush := true;
       ecr.lifecycleRules :=
         [ {| ecr.tagStatus := ecr.ANY;
              ecr.description := "Keep last 10 images";
              ecr.maxImageCount := 10 |} ] |}) in
  let* dockerImage := new_DockerImageAsset "McpAtlassianImage"
    {| assets.directory := path_join __dirname "../../";
       assets.file := "Dockerfile";
       assets.platform := assets.LINUX_AMD64;
       assets.exclude := ["cdk"; "cdk.out"; "node_modules"; ".git"; ".github"] |} in
  let* cluster := construct "McpCluster" (Cluster
    {| ecs.clusterProps :=
         {| ecs.clusterName := "mcp-atlassian-cluster";
            ecs.vpc := vpc;
            ecs.enableFargateCapacityProviders := true;
            ecs.containerInsightsV2 := ecs.ENABLED |};
       ecs.defaultCloudMapNamespace := None |}) in
  let* mcpSG := construct "McpSecurityGroup" (SecurityGroup
    {| ec2.securityGroupName := "mcp-atlassian-sg";
       ec2.description := "MCP Atlassian server — inbound from LangBuilder only";
       ec2.vpc := vpc;
       ec2.ingressRules := [] |}) in
  addIngressRule mcpSG (ec2.ipv4 allowedCidr) (ec2.tcp MCP_PORT)
    "Allow MCP traffic from LangBuilder";;
  let* logGroup := construct "McpLogGroup" (LogGroup
    {| logs.logGroupName := "/ecs/mcp-atlassian";
       logs.removalPolicy := DESTROY;
       logs.retention := logs.TWO_WEEKS |}) in
  let* taskExecutionRole := construct "TaskExecutionRole" (Role
    {| iam.assumedBy := iam.ServicePrincipal "ecs-tasks.amazonaws.com";
       iam.managedPolicies := ["service-role/AmazonECSTaskExecutionRolePolicy"];
       iam.grants := [] |}) in
  grantRead atlassianSecret taskExecutionRole;;
  let* taskRole := construct "TaskRole" (Role
    {| iam.assumedBy := iam.ServicePrincipal "ecs-tasks.amazonaws.com";
       iam.managedPolicies := [];
       iam.grants := [] |}) in
  let* taskDef := construct "McpTaskDef" (FargateTaskDefinition
    {| ecs.memoryLimitMiB := 512;
       ecs.cpu := 256;
       ecs.executionRole := taskExecutionRole;
       ecs.taskRole := taskRole;
       ecs.runtimePlatform :=
         {| ecs.operatingSystemFamily := ecs.LINUX;
            ecs.cpuArchitecture := ecs.X86_64 |};
       ecs.containers := [] |}) in
  addContainer taskDef "mcp-atlassian"
    {| ecs.image := ecs.fromDockerImageAsset dockerImage;
       ecs.containerName := "mcp-atlassian";
       ecs.logging := ecs.awsLogs
         {| ecs.streamPrefix := "mcp"; ecs.logGroup := logGroup |};
       ecs.portMappings :=
         [ {| ecs.containerPort := MCP_PORT; ecs.protocol := ecs.TCP |} ];
       ecs.secrets := Some
         [ ("JIRA_URL", ecs.fromSecretsManager atlassianSecret "JIRA_URL");
           ("JIRA_USERNAME",
             ecs.fromSecretsManager atlassianSecret "JIRA_USERNAME");
           ("JIRA_API_TOKEN",
             ecs.fromSecretsManager atlassianSecret "JIRA_API_TOKEN");
           ("CONFLUENCE_URL",
             ecs.fromSecretsManager atlassianSecret "CONFLUENCE_URL");
           ("CONFLUENCE_USERNAME",
             ecs.fromSecretsManager atlassianSecret "CONFLUENCE_USERNAME");
           ("CONFLUENCE_API_TOKEN",
             ecs.fromSecretsManager atlassianSecret "CONFLUENCE_API_TOKEN") ];
       ecs.environment := None;
       ecs.containerCommand :=
         ["--transport"; "http"; "--port"; JS.toString MCP_PORT];
       ecs.healthCheck :=
         {| ecs.command :=
              [ "CMD-SHELL";
                "wget -qO- http://localhost:" +:+ JS.toString MCP_PORT
                  +:+ "/mcp || exit 1" ];
            ecs.interval := seconds 30;
            ecs.timeout := seconds 5;
            ecs.retries := 3;
            ecs.startPeriod := seconds 15 |} |};;
  let* service := construct "McpService" (FargateService
    {| ecs.cluster := cluster;
       ecs.serviceName := "mcp-atlassian";
       ecs.taskDefinition := taskDef;
       ecs.desiredCount := 1;
       ecs.securityGroups := [mcpSG];
       ecs.vpcSubnets :=
         {| ec2.selectSubnetType := ec2.PRIVATE_WITH_EGRESS |};
       ecs.assignPublicIp := None;
       ecs.enableExecuteCommand := true;
       ecs.circuitBreaker :=
         Some {| ecs.enable := true; ecs.rollback := true |};
       ecs.cloudMap := None |}) in
  addDefaultCloudMapNamespace cluster
    {| ecs.namespaceName := "mcp.internal"; ecs.namespaceVpc := vpc |};;
  enableCloudMap service {| ecs.cloudMapName := "atlassian" |};;
  construct "SecretArn" (CfnOutput
    {| cdk.value := [Tok atlassianSecret "secretArn"];
       cdk.description :=
         "ARN of the Atlassian credentials secret — update via AWS Console or CLI" |});;
  construct "ServiceDiscoveryEndpoint" (CfnOutput
    {| cdk.value := [Lit ("atlassian.mcp.internal:" +:+ JS.toString MCP_PORT)];
       cdk.description :=
         "Internal DNS endpoint for the MCP server (from within the VPC)" |});;
  construct "EcrRepoUri" (CfnOutput
    {| cdk.value := [Tok ecrRepo "repositoryUri"];
       cdk.description := "ECR repository URI for pushing custom images" |});;
  construct "ClusterName" (CfnOutput
    {| cdk.value := [Tok cluster "clusterName"];
       cdk.description :=
         "ECS cluster name (for aws ecs execute-command debugging)" |});;
  ret tt.

End PrivateStack.

(** ** [src/unnamed/part_000] *)

Module AlbStack.

Definition MCP_PORT : N := 9000.

Definition McpAtlassianStack : Synth unit :=
  let* existingVpcName := tryGetContext "existingVpcName" in
  let* allowedCidrContext := tryGetContext "allowedCidr" in
  let allowedCidr := JS.nullish allowedCidrContext "10.0.0.0/16" in
  let* vpc :=
    if JS.truthy existingVpcName
    then Vpc_fromLookup "ImportedVpc"
           {| ec2.lookupVpcName := narrowed existingVpcName |}
    else new_Vpc "McpVpc"
           {| ec2.vpcName := "mcp-atlassian-vpc";
              ec2.ipAddresses := "10.1.0.0/16";
              ec2.maxAzs := 2;
              ec2.natGateways := 1;
              ec2.subnetConfiguration :=
                [ {| ec2.cidrMask := 24;
                     ec2.name := "mcp-public";
                     ec2.subnetType := ec2.PUBLIC |};
                  {| ec2.cidrMask := 24;
                     ec2.name := "mcp-private";
                     ec2.subnetType := ec2.PRIVATE_WITH_EGRESS |} ] |} in
  let* ecrRepo := construct "McpAtlassianRepo" (Repository
    {| ecr.repositoryName := "mcp-atlassian";
       ecr.removalPolicy := DESTROY;
       ecr.imageScanOnPush := true;
       ecr.lifecycleRules :=
         [ {| ecr.tagStatus := ecr.ANY;
              ecr.description := "Keep last 10 images";
              ecr.maxImageCount := 10 |} ] |}) in
  let* dockerImage := new_DockerImageAsset "McpAtlassianImage"
    {| assets.directory := path_join __dirname "../../";
       assets.file := "Dockerfile";
       assets.platform := assets.LINUX_AMD64;
       assets.exclude := ["cdk"; "cdk.out"; "node_modules"; ".git"; ".github"] |} in
  let* cluster := construct "McpCluster" (Cluster
    {| ecs.clusterProps :=
         {| ecs.clusterName := "mcp-atlassian-cluster";
            ecs.vpc := vpc;
            ecs.enableFargateCapacityProviders := true;
            ecs.containerInsightsV2 := ecs.ENABLED |};
       ecs.defaultCloudMapNamespace := None |}) in
  let* mcpSG := construct "McpSecurityGroup" (SecurityGroup
    {| ec2.securityGroupName := "mcp-atlassian-sg";
       ec2.description := "MCP Atlassian server - inbound from LangBuilder only";
       ec2.vpc := vpc;
       ec2.ingressRules := [] |}) in
  addIngressRule mcpSG (ec2.ipv4 allowedCidr) (ec2.tcp MCP_PORT)
    "Allow MCP traffic from LangBuilder";;
  let* logGroup := construct "McpLogGroup" (LogGroup
    {| logs.logGroupName := "/ecs/mcp-atlassian";
       logs.removalPolicy := DESTROY;
       logs.retention := logs.TWO_WEEKS |}) in
  let* taskExecutionRole := construct "TaskExecutionRole" (Role
    {| iam.assumedBy := iam.ServicePrincipal "ecs-tasks.amazonaws.com";
       iam.managedPolicies := ["service-role/AmazonECSTaskExecutionRolePolicy"];
       iam.grants := [] |}) in
  let* taskRole := construct "TaskRole" (Role
    {| iam.assumedBy := iam.ServicePrincipal "ecs-tasks.amazonaws.com";
       iam.managedPolicies := [];
       iam.grants := [] |}) in
  let* taskDef := construct "McpTaskDef" (FargateTaskDefinition
    {| ecs.memoryLimitMiB := 512;
       ecs.cpu := 256;
       ecs.executionRole := taskExecutionRole;
       ecs.taskRole := taskRole;
       ecs.runtimePlatform :=
         {| ecs.operatingSystemFamily := ecs.LINUX;
            ecs.cpuArchitecture := ecs.X86_64 |};
       ecs.containers := [] |}) in
  addContainer taskDef "mcp-atlassian"
    {| ecs.image := ecs.fromDockerImageAsset dockerImage;
       ecs.containerName := "mcp-atlassian";
       ecs.logging := ecs.awsLogs
         {| ecs.streamPrefix := "mcp"; ecs.logGroup := logGroup |};
       ecs.portMappings :=
         [ {| ecs.containerPort := MCP_PORT; ecs.protocol := ecs.TCP |} ];
       ecs.secrets := None;
       ecs.environment := Some
         [ ("ATLASSIAN_OAUTH_ENABLE", "true");
           ("JIRA_URL", "https://cloudgeometry.atlassian.net");
           ("CONFLUENCE_URL", "https://cloudgeometry.atlassian.net/wiki") ];
       ecs.containerCommand :=
         [ "--transport"; "streamable-http"; "--host"; "0.0.0.0";
           "--port"; JS.toString MCP_PORT ];
       ecs.healthCheck :=
         {| ecs.command :=
              [ "CMD-SHELL";
                "wget -qO- http://localhost:" +:+ JS.toString MCP_PORT
                  +:+ "/healthz || exit 1" ];
            ecs.interval := seconds 30;
            ecs.timeout := seconds 5;
            ecs.retries := 3;
            ecs.startPeriod := seconds 15 |} |};;
  let* service := construct "McpService" (FargateService
    {| ecs.cluster := cluster;
       ecs.serviceName := "mcp-atlassian";
       ecs.taskDefinition := taskDef;
       ecs.desiredCount := 1;
       ecs.securityGroups := [mcpSG];
       ecs.vpcSubnets :=
         {| ec2.selectSubnetType := ec2.PRIVATE_WITH_EGRESS |};
       ecs.assignPublicIp := None;
       ecs.enableExecuteCommand := true;
       ecs.circuitBreaker :=
         Some {| ecs.enable := true; ecs.rollback := true |};
       ecs.cloudMap := None |}) in
  let* alb := construct "McpAlb" (ApplicationLoadBalancer
    {| elbv2.loadBalancerName := "mcp-atlassian-alb";
       elbv2.vpc := vpc;
       elbv2.internetFacing := true;
       elbv2.listeners := [];
       elbv2.ownIngressRules := [] |}) in
  let* listener := addListener alb "McpListener" 80 elbv2.HTTP in
  addTargets listener "McpTargets"
    {| elbv2.targetPort := MCP_PORT;
       elbv2.targetProtocol := elbv2.HTTP;
       elbv2.targets := [service];
       elbv2.healthCheck :=
         {| elbv2.path := "/healthz";
            elbv2.interval := seconds 30;
            elbv2.healthyThresholdCount := 2;
            elbv2.unhealthyThresholdCount := 3 |} |};;
  connections_allowFrom service alb (ec2.tcp MCP_PORT)
    "Allow ALB to reach MCP server";;
  addDefaultCloudMapNamespace cluster
    {| ecs.namespaceName := "mcp.internal"; ecs.namespaceVpc := vpc |};;
  enableCloudMap service {| ecs.cloudMapName := "atlassian" |};;
  construct "AlbEndpoint" (CfnOutput
    {| cdk.value := [Lit "http://"; Tok alb "loadBalancerDnsName"];
       cdk.description :=
         "Public URL for the MCP server (use as MCP Server URL in LangBuilder)" |});;
  construct "ServiceDiscoveryEndpoint" (CfnOutput
    {| cdk.value := [Lit ("atlassian.mcp.internal:" +:+ JS.toString MCP_PORT)];
       cdk.description :=
         "Internal DNS endpoint for the MCP server (from within the VPC)" |});;
  construct "EcrRepoUri" (CfnOutput
    {| cdk.value := [Tok ecrRepo "repositoryUri"];
       cdk.description := "ECR repository URI for pushing custom images" |});;
  construct "ClusterName" (CfnOutput
    {| cdk.value := [Tok cluster "clusterName"];
       cdk.description :=
         "ECS cluster name (for aws ecs execute-command debugging)" |});;
  ret tt.

End AlbStack.

(** ** The two stacks as one resolver *)

(** What the spec calls the exposure and credential modes; each stack
    realises one pair of them. *)
Inductive ExposureMode := private_only | public_alb.
Inductive AuthMode := shared_credentials | per_request_oauth.

Inductive StackVariant := PrivateVariant | AlbVariant.

Definition exposureMode (v : StackVariant) : ExposureMode :=
  match v with
  | PrivateVariant => private_only
  | AlbVariant => public_alb
  end.

Definition authMode (v : StackVariant) : AuthMode :=
  match v with
  | PrivateVariant => shared_credentials
  | AlbVariant => per_request_oauth
  end.

Definition stackOf (v : StackVariant) : Synth unit :=
  match v with
  | PrivateVariant => PrivateStack.McpAtlassianStack
  | AlbVariant => AlbStack.McpAtlassianStack
  end.

(** Synthesis: the constructor run on a fresh scope holding the context. *)
Definition synth (v : StackVariant) (ctx : gmap string string) : Outcome unit :=
  stackOf v (emptyScope ctx).

(** The resource specification: the constructs of the synthesised scope,
    or nothing when the constructor threw. *)
Definition resolve (v : StackVariant) (ctx : gmap string string)
  : option (list (string * Construct)) :=
  match synth v ctx with
  | Ok _ s => Some (children s)
  | Err _ => None
  end.

Definition lookupsOf (v : StackVariant) (ctx : gmap string string)
  : option (list EnvironmentAccess) :=
  match synth v ctx with
  | Ok _ s => Some (lookups s)
  | Err _ => None
  end.

(** The context keys the constructors read. *)
Record DeploymentConfig := {
  existingVpcName : option string;
  allowedCidr : option string }.

Definition configOf (ctx : gmap string string) : DeploymentConfig :=
  {| existingVpcName := ctx !! "existingVpcName";
     allowedCidr := ctx !! "allowedCidr" |}.

Definition setContext (key : string) (v : option string)
    (ctx : gmap string string) : gmap string string :=
  match v with
  | Some s => <[key := s]> ctx
  | None => ctx
  end.

(** The least context that carries a configuration. *)
Definition contextOf (cfg : DeploymentConfig) : gmap string string :=
  setContext "existingVpcName" (existingVpcName cfg)
    (setContext "allowedCidr" (allowedCidr cfg) ∅).

(** ** Reading a resource specification *)

Definition Specification := list (string * Construct).

Definition secretsOf (spec : Specification)
  : list (string * secretsmanager.SecretProps) :=
  omap (fun ic => match ic.2 with Secret p => Some (ic.1, p) | _ => None end) spec.

Definition rolesOf (spec : Specification) : list (string * iam.Role) :=
  omap (fun ic => match ic.2 with Role r => Some (ic.1, r) | _ => None end) spec.

Definition securityGroupsOf (spec : Specification)
  : list (string * ec2.SecurityGroup) :=
  omap (fun ic => match ic.2 with SecurityGroup g => Some (ic.1, g) | _ => None end)
       spec.

Definition repositoriesOf (spec : Specification)
  : list (string * ecr.RepositoryProps) :=
  omap (fun ic => match ic.2 with Repository p => Some (ic.1, p) | _ => None end) spec.

Definition clustersOf (spec : Specification) : list (string * ecs.Cluster) :=
  omap (fun ic => match ic.2 with Cluster c => Some (ic.1, c) | _ => None end) spec.

Definition taskDefinitionsOf (spec : Specification)
  : list (string * ecs.FargateTaskDefinition) :=
  omap (fun ic => match ic.2 with
                  | FargateTaskDefinition td => Some (ic.1, td)
                  | _ => None
                  end) spec.

Definition containersOf (spec : Specification)
  : list ecs.ContainerDefinitionOptions :=
  flat_map (fun td => map snd (ecs.containers td.2)) (taskDefinitionsOf spec).

Definition servicesOf (spec : Specification)
  : list (string * ecs.FargateService) :=
  omap (fun ic => match ic.2 with FargateService s => Some (ic.1, s) | _ => None end)
       spec.

Definition loadBalancersOf (spec : Specification)
  : list (string * elbv2.ApplicationLoadBalancer) :=
  omap (fun ic => match ic.2 with
                  | ApplicationLoadBalancer lb => Some (ic.1, lb)
                  | _ => None
                  end) spec.

Definition listenersOf (spec : Specification) : list elbv2.Listener :=
  flat_map (fun lb => map snd (elbv2.listeners lb.2)) (loadBalancersOf spec).

Definition outputsOf (spec : Specification) : list (string * Value) :=
  omap (fun ic => match ic.2 with
                  | CfnOutput p => Some (ic.1, cdk.value p)
                  | _ => None
                  end) spec.

(** The spec's network topology: a network that is referred to by name, or
    one the stack creates with an address block and subnet tiers. *)
Inductive NetworkTopology :=
| Imported (name : string)
| Created (cidrBlock : string) (subnetTiers : list ec2.SubnetType).

Definition topologyOf (c : Construct) : option NetworkTopology :=
  match c with
  | LookedUpVpc o => Some (Imported (ec2.lookupVpcName o))
  | Vpc p => Some (Created (ec2.ipAddresses p)
                     (map ec2.subnetType (ec2.subnetConfiguration p)))
  | _ => None
  end.

(** The networks of a specification, with the construct id of each. *)
Definition networksOf (spec : Specification) : list (string * NetworkTopology) :=
  omap (fun ic => pair ic.1 <$> topologyOf ic.2) spec.

(** The networks the stack itself creates. *)
Definition createdVpcsOf (spec : Specification) : list (string * ec2.VpcProps) :=
  omap (fun ic => match ic.2 with Vpc p => Some (ic.1, p) | _ => None end) spec.

(** Every place where a construct names the network it lives in. *)
Definition vpcReferencesOf (spec : Specification) : list string :=
  flat_map (fun ic =>
    match ic.2 with
    | Cluster c =>
        ecs.vpc (ecs.clusterProps c) ::
        match ecs.defaultCloudMapNamespace c with
        | Some ns => [ecs.namespaceVpc ns]
        | None => []
        end
    | SecurityGroup g => [ec2.vpc g]
    | ApplicationLoadBalancer lb => [elbv2.vpc lb]
    | _ => []
    end) spec.

(** The roles that hold a read grant on a secret. *)
Definition readersOf (spec : Specification) (secret : string) : list string :=
  omap (fun ir =>
          if existsb (fun g => match g with
                               | iam.GrantRead r => String.eqb r secret
                               end) (iam.grants ir.2)
          then Some ir.1 else None)
       (rolesOf spec).

(** The execution identities and the runtime identities of the tasks. *)
Definition executionRolesOf (spec : Specification) : list string :=
  map (fun td => ecs.executionRole td.2) (taskDefinitionsOf spec).

Definition taskRolesOf (spec : Specification) : list string :=
  map (fun td => ecs.taskRole td.2) (taskDefinitionsOf spec).

(** The ingress rules that guard a service: those of its security groups. *)
Definition ingressOf (spec : Specification) (svc : ecs.FargateService)
  : list ec2.IngressRule :=
  flat_map (fun g => if bool_decide (g.1 ∈ ecs.securityGroups svc)
                     then ec2.ingressRules g.2 else [])
           (securityGroupsOf spec).

Definition internetFacingOf (spec : Specification) : list string :=
  omap (fun lb => if elbv2.internetFacing lb.2 then Some lb.1 else None)
       (loadBalancersOf spec).

(** *** The path a health-check command requests *)

Fixpoint afterScheme (s : string) : option string :=
  match s with
  | EmptyString => None
  | String c rest =>
      if String.prefix "://" s then Some (String.substring 3 (String.length rest) s)
      else afterScheme rest
  end.

Fixpoint fromSlash (s : string) : option string :=
  match s with
  | EmptyString => None
  | String c rest =>
      if Ascii.eqb c "/" then Some s
      else if Ascii.eqb c " " then None
      else fromSlash rest
  end.

Fixpoint untilSpace (s : string) : string :=
  match s with
  | EmptyString => EmptyString
  | String c rest =>
      if Ascii.eqb c " " then EmptyString else String c (untilSpace rest)
  end.

(** The path of the first URL in a shell command line: from the first
    slash after the authority up to the next blank. *)
Definition urlPath (line : string) : option string :=
  rest ← afterScheme line;
  p ← fromSlash rest;
  Some (untilSpace p).

(** The path the container's own health check asks [wget] for. *)
Definition probePath (hc : ecs.HealthCheck) : option string :=
  line ← last (ecs.command hc);
  urlPath line.

(** *** Text search, for what the outputs show *)

Fixpoint contains (needle hay : string) : bool :=
  String.prefix needle hay ||
  match hay with
  | EmptyString => false
  | String _ rest => contains needle rest
  end.

(** The values a secret is seeded with, as the stack writes them. *)
Definition placeholderValues : list string :=
  [ "https://your-domain.atlassian.net";
    "user@company.com";
    "CHANGE_ME";
    "https://your-domain.atlassian.net/wiki" ].

(** A fragment of an output shows a credential when it is literal text
    holding a seeded value or the template, or a token of a secret other
    than its ARN. *)
Definition showsCredential (spec : Specification) (f : Fragment) : bool :=
  match f with
  | Lit text =>
      existsb (fun v => contains v text) placeholderValues ||
      existsb (fun s =>
                 contains (secretsmanager.secretStringTemplate
                             (secretsmanager.generateSecretString s.2)) text)
              (secretsOf spec)
  | Tok c attribute =>
      existsb (fun s => String.eqb s.1 c) (secretsOf spec) &&
      negb (String.eqb attribute "secretArn")
  end.

(** *** IPv4 address blocks *)

Fixpoint splitOn (sep : ascii) (s : string) : list string :=
  match s with
  | EmptyString => [EmptyString]
  | String c rest =>
      if Ascii.eqb c sep then EmptyString :: splitOn sep rest
      else match splitOn sep rest with
           | h :: t => String c h :: t
           | [] => [String c EmptyString]
           end
  end.

Fixpoint decimalFrom (acc : N) (s : string) : option N :=
  match s with
  | EmptyString => Some acc
  | String c rest =>
      let n := N_of_ascii c in
      if (48 <=? n) && (n <=? 57)
      then decimalFrom (10 * acc + (n - 48)) rest
      else None
  end.

Definition parseDecimal (s : string) : option N :=
  match s with
  | EmptyString => None
  | _ => decimalFrom 0 s
  end.

(** One number of a dotted address: one to three decimal digits. *)
Definition parseOctet (s : string) : option N :=
  if (String.length s <=? 3)%nat then parseDecimal s else None.

(** The check [ec2.Peer.ipv4] makes before it takes a string: four groups
    of one to three digits separated by dots, then a slash and at least one
    digit. *)
Definition peerIpv4Accepts (s : string) : bool :=
  match splitOn "/" s with
  | [address; len] =>
      match splitOn "." address with
      | [a; b; c; d] =>
          forallb (fun o => bool_decide (is_Some (parseOctet o))) [a; b; c; d]
          && bool_decide (is_Some (parseDecimal len))
      | _ => false
      end
  | _ => false
  end.

(** An address block in CIDR notation [a.b.c.d/len], as its base address
    (a 32-bit number) and prefix length. *)
Definition parseCidr (s : string) : option (N * N) :=
  match splitOn "/" s with
  | [address; len] =>
      match map parseOctet (splitOn "." address), parseDecimal len with
      | [Some a; Some b; Some c; Some d], Some l =>
          if (a <=? 255) && (b <=? 255) && (c <=? 255) && (d <=? 255)
             && (l <=? 32)
          then Some (((a * 256 + b) * 256 + c) * 256 + d, l)
          else None
      | _, _ => None
      end
  | _ => None
  end.

(** An address lies in a block when it agrees with the base on the
    prefix bits. *)
Definition inCidr (address : N) (block : N * N) : bool :=
  N.shiftr address (32 - block.2) =? N.shiftr block.1 (32 - block.2).

(** An ingress rule admits a packet by its source address only when its
    peer is an address block holding the source and the port is the
    rule's. A rule whose peer is another construct names no address block. *)
Definition admitsAddress (r : ec2.IngressRule) (source port : N) : bool :=
  match ec2.peer r, ec2.connection r with
  | ec2.ipv4 cidrIp, ec2.tcp p =>
      match parseCidr cidrIp with
      | Some block => inCidr source block && (p =? port)
      | None => false
      end
  | ec2.connectable _, _ => false
  end.

Definition isCidrRule (r : ec2.IngressRule) : bool :=
  match ec2.peer r with
  | ec2.ipv4 _ => true
  | ec2.connectable _ => false
  end.

(** *** The deployment life cycle *)

Inductive DeploymentState :=
| Draft | Resolved | Applying | Healthy | RolledBack | Aborted.

Inductive DeploymentEvent :=
| Plan | Submit | ReachedHealthy | HealthCheckTimeout | NamingCollision.

(** Modelled from the spec: the provisioning backend is not part of the
    repository; the stacks only pass it the [circuitBreaker] prop of the
    service. Its life cycle is the spec's [Draft -> Resolved -> Applying ->
    {Healthy | RolledBack}], with a hard abort on a naming collision. A
    health-check timeout rolls the deployment back when the circuit breaker
    is enabled with rollback; an enabled breaker without rollback stops the
    deployment where it is, and without a breaker the backend keeps trying. *)
Definition backendStep (breaker : option ecs.DeploymentCircuitBreaker)
    (s : DeploymentState) (e : DeploymentEvent) : DeploymentState :=
  match s, e with
  | Draft, Plan => Resolved
  | Resolved, Submit => Applying
  | Applying, ReachedHealthy => Healthy
  | Applying, NamingCollision => Aborted
  | Applying, HealthCheckTimeout =>
      match breaker with
      | Some b =>
          if ecs.enable b
          then if ecs.rollback b then RolledBack else Aborted
          else Applying
      | None => Applying
      end
  | _, _ => s
  end.

(** *** What the two stacks share *)

Definition neutralContainer (c : ecs.ContainerDefinitionOptions)
  : ecs.ContainerDefinitionOptions :=
  {| ecs.image := ecs.image c;
     ecs.containerName := ecs.containerName c;
     ecs.logging := ecs.logging c;
     ecs.portMappings := ecs.portMappings c;
     ecs.secrets := None;
     ecs.environment := None;
     ecs.containerCommand := ecs.containerCommand c;
     ecs.healthCheck := ecs.healthCheck c |}.

Definition isModeResource (c : Construct) : bool :=
  match c with
  | Secret _ | ApplicationLoadBalancer _ => true
  | _ => false
  end.

Definition modeResourcesOf (spec : Specification) : list string :=
  omap (fun ic => if isModeResource ic.2 then Some ic.1 else None) spec.

Definition refersTo (ids : list string) (v : Value) : bool :=
  existsb (fun f => match f with
                    | Tok c _ => bool_decide (c ∈ ids)
                    | Lit _ => false
                    end) v.

(** A specification without what the exposure mode brings (the load
    balancer with its listeners, the rule that lets it in, its output) and
    what the credential mode brings (the secret, the grants on it, the
    container's secrets and plain environment, its output). *)
Definition withoutModes (spec : Specification) : Specification :=
  omap (fun ic =>
    match ic.2 with
    | Secret _ | ApplicationLoadBalancer _ => None
    | Role r =>
        Some (ic.1, Role {| iam.assumedBy := iam.assumedBy r;
                            iam.managedPolicies := iam.managedPolicies r;
                            iam.grants := [] |})
    | SecurityGroup g =>
        Some (ic.1, SecurityGroup
          {| ec2.securityGroupName := ec2.securityGroupName g;
             ec2.description := ec2.description g;
             ec2.vpc := ec2.vpc g;
             ec2.ingressRules := List.filter isCidrRule (ec2.ingressRules g) |})
    | FargateTaskDefinition td =>
        Some (ic.1, FargateTaskDefinition
          {| ecs.memoryLimitMiB := ecs.memoryLimitMiB td;
             ecs.cpu := ecs.cpu td;
             ecs.executionRole := ecs.executionRole td;
             ecs.taskRole := ecs.taskRole td;
             ecs.runtimePlatform := ecs.runtimePlatform td;
             ecs.containers :=
               map (fun c => (c.1, neutralContainer c.2)) (ecs.containers td) |})
    | CfnOutput p =>
        if refersTo (modeResourcesOf spec) (cdk.value p) then None else Some ic
    | _ => Some ic
    end) spec.

(** The same with the four settings in which the copies have drifted
    blanked out: the repository's removal policy, the security group's
    description, the container's command and its health-check command. *)
Definition withoutDrift (spec : Specification) : Specification :=
  map (fun ic =>
    match ic.2 with
    | Repository p =>
        (ic.1, Repository
          {| ecr.repositoryName := ecr.repositoryName p;
             ecr.removalPolicy := RETAIN;
             ecr.imageScanOnPush := ecr.imageScanOnPush p;
             ecr.lifecycleRules := ecr.lifecycleRules p |})
    | SecurityGroup g =>
        (ic.1, SecurityGroup
          {| ec2.securityGroupName := ec2.securityGroupName g;
             ec2.description := EmptyString;
             ec2.vpc := ec2.vpc g;
             ec2.ingressRules := ec2.ingressRules g |})
    | FargateTaskDefinition td =>
        (ic.1, FargateTaskDefinition
          {| ecs.memoryLimitMiB := ecs.memoryLimitMiB td;
             ecs.cpu := ecs.cpu td;
             ecs.executionRole := ecs.executionRole td;
             ecs.taskRole := ecs.taskRole td;
             ecs.runtimePlatform := ecs.runtimePlatform td;
             ecs.containers :=
               map (fun c =>
                 (c.1,
                  {| ecs.image := ecs.image c.2;
                     ecs.containerName := ecs.containerName c.2;
                     ecs.logging := ecs.logging c.2;
                     ecs.portMappings := ecs.portMappings c.2;
                     ecs.secrets := ecs.secrets c.2;
                     ecs.environment := ecs.environment c.2;
                     ecs.containerCommand := [];
                     ecs.healthCheck :=
                       {| ecs.command := [];
                          ecs.interval := ecs.interval (ecs.healthCheck c.2);
                          ecs.timeout := ecs.timeout (ecs.healthCheck c.2);
                          ecs.retries := ecs.retries (ecs.healthCheck c.2);
                          ecs.startPeriod :=
                            ecs.startPeriod (ecs.healthCheck c.2) |} |}))
                 (ecs.containers td) |})
    | _ => ic
    end) spec.

Definition removalPoliciesOf (spec : Specification) : list RemovalPolicy :=
  map (fun r => ecr.removalPolicy r.2) (repositoriesOf spec).

Definition commandsOf (spec : Specification) : list (list string) :=
  map ecs.containerCommand (containersOf spec).

Definition probePathsOf (spec : Specification) : list (option string) :=
  map (fun c => probePath (ecs.healthCheck c)) (containersOf spec).

Definition groupDescriptionsOf (spec : Specification) : list string :=
  map (fun g => ec2.description g.2) (securityGroupsOf spec).

(** The grants a role holds, by the role's construct id. *)
Definition grantsOf (spec : Specification) (role : string) : list iam.Grant :=
  flat_map (fun r => if String.eqb r.1 role then iam.grants r.2 else [])
           (rolesOf spec).

(** The ingress rules of every security group of the specification:
    those the stack creates and those the load balancers create for
    themselves. *)
Definition allIngressOf (spec : Specification) : list ec2.IngressRule :=
  flat_map (fun g => ec2.ingressRules g.2) (securityGroupsOf spec) ++
  flat_map (fun lb => elbv2.ownIngressRules lb.2) (loadBalancersOf spec).

(** The service-discovery endpoints [<service>.<namespace>:<port>]: for a
    service registered in Cloud Map, its name there, the default namespace
    of its cluster and each container port of its task definition. *)
Definition discoveryEndpointsOf (spec : Specification) : list string :=
  flat_map (fun s =>
    match ecs.cloudMap s.2 with
    | None => []
    | Some registration =>
        flat_map (fun cl =>
          match ecs.defaultCloudMapNamespace cl.2 with
          | Some ns =>
              if String.eqb cl.1 (ecs.cluster s.2)
              then flat_map (fun td =>
                     if String.eqb td.1 (ecs.taskDefinition s.2)
                     then flat_map (fun c =>
                            map (fun pm =>
                                   ecs.cloudMapName registration +:+ "."
                                     +:+ ecs.namespaceName ns +:+ ":"
                                     +:+ JS.toString (ecs.containerPort pm))
                                (ecs.portMappings c.2))
                          (ecs.containers td.2)
                     else [])
                   (taskDefinitionsOf spec)
              else []
          | None => []
          end) (clustersOf spec)
    end) (servicesOf spec).

(** The specification a configuration resolves to, computed on the least
    context that carries it. *)
Definition specification (v : StackVariant) (cfg : DeploymentConfig)
  : Specification :=
  default [] (resolve v (contextOf cfg)).


(** ** The claims of the spec as they are worded, where the code differs *)

(** Per-request mode: no secret, and the container's plain environment
    is two values, the Jira and Confluence base URLs. *)
Definition perRequestClaim (v : StackVariant) (ctx : gmap string string) : Prop :=
  authMode v = per_request_oauth →
  ∃ spec, resolve v ctx = Some spec ∧
    secretsOf spec = [] ∧
    ∀ c, c ∈ containersOf spec →
      ∃ env, ecs.environment c = Some env ∧
        length env = 2%nat ∧
        "JIRA_URL" ∈ env.*1 ∧ "CONFLUENCE_URL" ∈ env.*1.

(** Network: imported whenever [existingVpcName] is set, created with two
    subnet tiers over two zones and one NAT path whenever it is absent. *)
Definition networkClaim (v : StackVariant) (ctx : gmap string string) : Prop :=
  ∃ spec, resolve v ctx = Some spec ∧
    match ctx !! "existingVpcName" with
    | Some name =>
        (∃ id, networksOf spec = [(id, Imported name)]) ∧
        createdVpcsOf spec = []
    | None =>
        ∃ id p, createdVpcsOf spec = [(id, p)] ∧
          networksOf spec =
            [(id, Created (ec2.ipAddresses p)
                    [ec2.PUBLIC; ec2.PRIVATE_WITH_EGRESS])] ∧
          ec2.maxAzs p = 2 ∧ ec2.natGateways p = 1
    end.

(** Exposure: a public listener on port 80, apart from the service port,
    forwarding to port 9000, whose health-check path differs from the
    container's; no listener in the private stack. *)
Definition exposureClaim (v : StackVariant) (ctx : gmap string string) : Prop :=
  ∃ spec, resolve v ctx = Some spec ∧
    match exposureMode v with
    | public_alb =>
        ∃ l tid tg c pm,
          listenersOf spec = [l] ∧ elbv2.targetGroups l = [(tid, tg)] ∧
          containersOf spec = [c] ∧ ecs.portMappings c = [pm] ∧
          elbv2.port l = 80 ∧ elbv2.port l ≠ ecs.containerPort pm ∧
          elbv2.targetPort tg = ecs.containerPort pm ∧
          ecs.containerPort pm = 9000 ∧
          probePath (ecs.healthCheck c)
            ≠ Some (elbv2.path (elbv2.healthCheck tg))
    | private_only => listenersOf spec = []
    end.


(** One resolver: the two stacks agree on everything the modes do not
    bring, in particular on the repository's removal policy, the container
    command and the health-check paths. *)
Definition sameResolverClaim (ctx : gmap string string) : Prop :=
  ∃ p a, resolve PrivateVariant ctx = Some p ∧
    resolve AlbVariant ctx = Some a ∧
    withoutModes p = withoutModes a ∧
    removalPoliciesOf p = removalPoliciesOf a ∧
    commandsOf p = commandsOf a ∧
    probePathsOf p = probePathsOf a.

(** ** Further readings of a specification *)

(** *** What kind of construct a reference expects *)

Inductive Kind :=
| NetworkKind | SecretKind | RepositoryKind | AssetKind | ClusterKind
| SecurityGroupKind | LogGroupKind | RoleKind | TaskDefinitionKind
| ServiceKind | LoadBalancerKind | OutputKind.

Definition Kind_eqb (a b : Kind) : bool :=
  match a, b with
  | NetworkKind, NetworkKind | SecretKind, SecretKind
  | RepositoryKind, RepositoryKind | AssetKind, AssetKind
  | ClusterKind, ClusterKind | SecurityGroupKind, SecurityGroupKind
  | LogGroupKind, LogGroupKind | RoleKind, RoleKind
  | TaskDefinitionKind, TaskDefinitionKind | ServiceKind, ServiceKind
  | LoadBalancerKind, LoadBalancerKind | OutputKind, OutputKind => true
  | _, _ => false
  end.

Definition kindOf (c : Construct) : Kind :=
  match c with
  | Vpc _ | LookedUpVpc _ => NetworkKind
  | Secret _ => SecretKind
  | Repository _ => RepositoryKind
  | DockerImageAsset _ => AssetKind
  | Cluster _ => ClusterKind
  | SecurityGroup _ => SecurityGroupKind
  | LogGroup _ => LogGroupKind
  | Role _ => RoleKind
  | FargateTaskDefinition _ => TaskDefinitionKind
  | FargateService _ => ServiceKind
  | ApplicationLoadBalancer _ => LoadBalancerKind
  | CfnOutput _ => OutputKind
  end.

Definition containerReferences (c : ecs.ContainerDefinitionOptions)
  : list (string * option Kind) :=
  (match ecs.image c with
   | ecs.fromDockerImageAsset a => (a, Some AssetKind)
   end) ::
  (match ecs.logging c with
   | ecs.awsLogs p => (ecs.logGroup p, Some LogGroupKind)
   end) ::
  match ecs.secrets c with
  | Some l => map (fun kv => match kv.2 with
                             | ecs.fromSecretsManager s _ => (s, Some SecretKind)
                             end) l
  | None => []
  end.

(** The constructs a construct refers to, each with the kind the place
    asks for; a peer of an ingress rule and a token may be of any kind. *)
Definition referencesOf (c : Construct) : list (string * option Kind) :=
  match c with
  | Cluster cl =>
      (ecs.vpc (ecs.clusterProps cl), Some NetworkKind) ::
      match ecs.defaultCloudMapNamespace cl with
      | Some ns => [(ecs.namespaceVpc ns, Some NetworkKind)]
      | None => []
      end
  | SecurityGroup g =>
      (ec2.vpc g, Some NetworkKind) ::
      flat_map (fun r => match ec2.peer r with
                         | ec2.connectable other => [(other, None)]
                         | ec2.ipv4 _ => []
                         end) (ec2.ingressRules g)
  | Role r =>
      map (fun g => match g with
                    | iam.GrantRead s => (s, Some SecretKind)
                    end) (iam.grants r)
  | FargateTaskDefinition td =>
      (ecs.executionRole td, Some RoleKind) ::
      (ecs.taskRole td, Some RoleKind) ::
      flat_map (fun c => containerReferences c.2) (ecs.containers td)
  | FargateService svc =>
      (ecs.cluster svc, Some ClusterKind) ::
      (ecs.taskDefinition svc, Some TaskDefinitionKind) ::
      map (fun g => (g, Some SecurityGroupKind)) (ecs.securityGroups svc)
  | ApplicationLoadBalancer lb =>
      (elbv2.vpc lb, Some NetworkKind) ::
      flat_map (fun l =>
        flat_map (fun tg => map (fun t => (t, Some ServiceKind))
                                (elbv2.targets tg.2))
                 (elbv2.targetGroups l.2)) (elbv2.listeners lb)
  | CfnOutput p =>
      flat_map (fun f => match f with
                         | Tok c _ => [(c, None)]
                         | Lit _ => []
                         end) (cdk.value p)
  | _ => []
  end.

Definition referencesIn (spec : Specification) : list (string * option Kind) :=
  flat_map (fun ic => referencesOf ic.2) spec.

(** A reference resolves when the specification holds a construct of
    that id and of the expected kind. *)
Definition resolvesIn (spec : Specification) (ref : string * option Kind) : bool :=
  match find ref.1 spec with
  | Some c =>
      match ref.2 with
      | Some k => Kind_eqb (kindOf c) k
      | None => true
      end
  | None => false
  end.

(** *** Ports the container is told about *)

(** The argument that follows a flag on a command line. *)
Fixpoint argumentAfter (flag : string) (args : list string) : option string :=
  match args with
  | [] => None
  | a :: rest => if String.eqb a flag then head rest else argumentAfter flag rest
  end.

Fixpoint untilSlashOrSpace (s : string) : string :=
  match s with
  | EmptyString => EmptyString
  | String c rest =>
      if Ascii.eqb c "/" || Ascii.eqb c " " then EmptyString
      else String c (untilSlashOrSpace rest)
  end.

(** Host and port of the first URL in a shell command line, when the
    authority is written [host:port]. *)
Definition urlHostPort (line : string) : option (string * N) :=
  rest ← afterScheme line;
  match splitOn ":" (untilSlashOrSpace rest) with
  | [host; port] => pair host <$> parseDecimal port
  | _ => None
  end.

Definition targetPortsOf (spec : Specification) : list N :=
  flat_map (fun l => map (fun tg => elbv2.targetPort tg.2) (elbv2.targetGroups l))
           (listenersOf spec).

(** *** What one context key can change *)


(** A specification without its network and with every mention of the
    network blanked. *)
Definition withoutNetwork (spec : Specification) : Specification :=
  omap (fun ic =>
    match ic.2 with
    | Vpc _ | LookedUpVpc _ => None
    | Cluster cl =>
        Some (ic.1, Cluster
          {| ecs.clusterProps :=
               {| ecs.clusterName := ecs.clusterName (ecs.clusterProps cl);
                  ecs.vpc := EmptyString;
                  ecs.enableFargateCapacityProviders :=
                    ecs.enableFargateCapacityProviders (ecs.clusterProps cl);
                  ecs.containerInsightsV2 :=
                    ecs.containerInsightsV2 (ecs.clusterProps cl) |};
             ecs.defaultCloudMapNamespace :=
               (fun ns => {| ecs.namespaceName := ecs.namespaceName ns;
                             ecs.namespaceVpc := EmptyString |})
                 <$> ecs.defaultCloudMapNamespace cl |})
    | SecurityGroup g =>
        Some (ic.1, SecurityGroup
          {| ec2.securityGroupName := ec2.securityGroupName g;
             ec2.description := ec2.description g;
             ec2.vpc := EmptyString;
             ec2.ingressRules := ec2.ingressRules g |})
    | ApplicationLoadBalancer lb =>
        Some (ic.1, ApplicationLoadBalancer
          {| elbv2.loadBalancerName := elbv2.loadBalancerName lb;
             elbv2.vpc := EmptyString;
             elbv2.internetFacing := elbv2.internetFacing lb;
             elbv2.listeners := elbv2.listeners lb;
             elbv2.ownIngressRules := elbv2.ownIngressRules lb |})
    | _ => Some ic
    end) spec.

(** *** Cloud Map *)

(** Every service registered in Cloud Map sits in a cluster of the
    specification that has a default namespace, in the cluster's network. *)
Definition registrationsHaveNamespace (spec : Specification) : bool :=
  forallb (fun s =>
    match ecs.cloudMap s.2 with
    | None => true
    | Some _ =>
        match find (ecs.cluster s.2) spec with
        | Some (Cluster cl) =>
            match ecs.defaultCloudMapNamespace cl with
            | Some ns =>
                String.eqb (ecs.namespaceVpc ns) (ecs.vpc (ecs.clusterProps cl))
            | None => false
            end
        | _ => false
        end
    end) (servicesOf spec).

(** *** Load-balancer targets *)

(** Every service a target group forwards to lets the load balancer in
    on the port the group forwards to. *)
Definition targetsReachable (spec : Specification) : bool :=
  forallb (fun lb =>
    forallb (fun l =>
      forallb (fun tg =>
        forallb (fun t =>
          match find t spec with
          | Some (FargateService svc) =>
              existsb (fun r =>
                match ec2.peer r, ec2.connection r with
                | ec2.connectable other, ec2.tcp p =>
                    String.eqb other lb.1 && (p =? elbv2.targetPort tg.2)
                | ec2.ipv4 _, _ => false
                end) (ingressOf spec svc)
          | _ => false
          end) (elbv2.targets tg.2))
        (elbv2.targetGroups l.2))
      (elbv2.listeners lb.2))
    (loadBalancersOf spec).

(** *** Description texts *)

Definition isAscii (s : string) : bool :=
  forallb (fun c => N_of_ascii c <? 128) (list_ascii_of_string s).

(** The description handed to each construct that takes one, and to each
    ingress rule and lifecycle rule. *)
Definition descriptionsOf (spec : Specification) : list string :=
  flat_map (fun ic =>
    match ic.2 with
    | Secret p => [secretsmanager.description p]
    | Repository p => map ecr.description (ecr.lifecycleRules p)
    | SecurityGroup g =>
        ec2.description g :: map ec2.ruleDescription (ec2.ingressRules g)
    | ApplicationLoadBalancer lb =>
        map ec2.ruleDescription (elbv2.ownIngressRules lb)
    | CfnOutput p => [cdk.description p]
    | _ => []
    end) spec.

(** *** Reading the secret template back *)

Module JSONText.

Definition hexValue (c : ascii) : option N :=
  let n := N_of_ascii c in
  if (48 <=? n) && (n <=? 57) then Some (n - 48)
  else if (97 <=? n) && (n <=? 102) then Some (n - 87)
  else if (65 <=? n) && (n <=? 70) then Some (n - 55)
  else None.

Definition consChar (c : ascii) (r : option (string * string))
  : option (string * string) :=
  match r with
  | Some (s, rest) => Some (String c s, rest)
  | None => None
  end.

(** The text of a JSON string up to its closing quote, unescaped, and
    what follows the quote. *)
Fixpoint readString (s : string) : option (string * string) :=
  match s with
  | EmptyString => None
  | String c r =>
      if Ascii.eqb c (ascii_of_N 34) then Some (EmptyString, r)
      else if Ascii.eqb c "\" then
        match r with
        | EmptyString => None
        | String e r1 =>
            if Ascii.eqb e "u" then
              match r1 with
              | String h1 (String h2 (String h3 (String h4 r2))) =>
                  match hexValue h1, hexValue h2, hexValue h3, hexValue h4 with
                  | Some 0, Some 0, Some a, Some b =>
                      consChar (ascii_of_N (16 * a + b)) (readString r2)
                  | _, _, _, _ => None
                  end
              | _ => None
              end
            else if Ascii.eqb e "b" then consChar (ascii_of_N 8) (readString r1)
            else if Ascii.eqb e "t" then consChar (ascii_of_N 9) (readString r1)
            else if Ascii.eqb e "n" then consChar (ascii_of_N 10) (readString r1)
            else if Ascii.eqb e "f" then consChar (ascii_of_N 12) (readString r1)
            else if Ascii.eqb e "r" then consChar (ascii_of_N 13) (readString r1)
            else if Ascii.eqb e (ascii_of_N 34) || Ascii.eqb e "\"
                    || Ascii.eqb e "/"
            then consChar e (readString r1)
            else None
        end
      else consChar c (readString r)
  end.

(** The members ["k":"v",...] of an object up to its closing brace; the
    fuel bounds the number of members. *)
Fixpoint readMembers (fuel : nat) (s : string) : option (list (string * string)) :=
  match fuel with
  | O => None
  | S fuel' =>
      match s with
      | String q r =>
          if Ascii.eqb q (ascii_of_N 34) then
            match readString r with
            | Some (k, String colon (String q' r1)) =>
                if Ascii.eqb colon ":" && Ascii.eqb q' (ascii_of_N 34) then
                  match readString r1 with
                  | Some (v, String sep r2) =>
                      if Ascii.eqb sep "}" then
                        match r2 with
                        | EmptyString => Some [(k, v)]
                        | _ => None
                        end
                      else if Ascii.eqb sep "," then
                        cons (k, v) <$> readMembers fuel' r2
                      else None
                  | _ => None
                  end
                else None
            | _ => None
            end
          else None
      | EmptyString => None
      end
  end.

(** A JSON object whose values are strings, as its members in order. *)
Definition parseObject (s : string) : option (list (string * string)) :=
  match s with
  | String open r =>
      if Ascii.eqb open "{" then
        match r with
        | String close EmptyString =>
            if Ascii.eqb close "}" then Some [] else readMembers (String.length r) r
        | _ => readMembers (String.length r) r
        end
      else None
  | EmptyString => None
  end.

Fixpoint lookupMember (key : string) (kvs : list (string * string))
  : option string :=
  match kvs with
  | [] => None
  | (k, v) :: rest => if String.eqb k key then Some v else lookupMember key rest
  end.

End JSONText.

(** ** Synthesis depends on the configuration only *)

Ltac by_configuration ctx :=
  unfold resolve, lookupsOf, synth, stackOf, configOf;
  cbv beta iota delta
    [PrivateStack.McpAtlassianStack AlbStack.McpAtlassianStack
     bind tryGetContext emptyScope context];
  generalize (ctx !! "existingVpcName") (ctx !! "allowedCidr").

Lemma resolve_specification v ctx :
  resolve v ctx = Some (specification v (configOf ctx)).
Proof.
  unfold specification.
  destruct v; by_configuration ctx;
    intros [[|a s]|] [c|]; vm_compute; reflexivity.
Qed.


(** Case analysis on what the two context keys hold. *)
Ltac config_cases ctx :=
  unfold configOf;
  generalize (ctx !! "existingVpcName") (ctx !! "allowedCidr").

Lemma resolve_inv v ctx spec :
  resolve v ctx = Some spec → spec = specification v (configOf ctx).
Proof.
  rewrite resolve_specification. intros H. symmetry. exact (inj Some _ _ H).
Qed.

(** The constructor never throws: every context resolves. *)
Lemma resolve_total v ctx : is_Some (resolve v ctx).
Proof. rewrite resolve_specification. eauto. Qed.

(** ** The scope operations *)

Lemma find_fresh id c cs :
  find id cs = None → find id (cs ++ [(id, c)])%list = Some c.
Proof.
  induction cs as [|[i c'] cs IH]; cbn.
  - rewrite String.eqb_refl. reflexivity.
  - destruct (String.eqb i id); [discriminate|exact IH].
Qed.

Lemma find_other id id' c cs :
  id' ≠ id → find id (cs ++ [(id', c)])%list = find id cs.
Proof.
  intros Hne. induction cs as [|[i c'] cs IH]; cbn.
  - destruct (String.eqb_spec id' id); [contradiction|reflexivity].
  - destruct (String.eqb i id); [reflexivity|exact IH].
Qed.

Lemma find_None_fresh id cs : find id cs = None → id ∉ cs.*1.
Proof.
  induction cs as [|[i c] cs IH]; cbn; intros H.
  - apply not_elem_of_nil.
  - destruct (String.eqb_spec i id) as [->|Hne]; [discriminate|].
    apply not_elem_of_cons. split; [congruence|auto].
Qed.

(** A method call keeps the ids of the scope and their order. *)
Lemma replace_ids id c cs : (replace id c cs).*1 = cs.*1.
Proof.
  induction cs as [|[i c'] cs IH]; cbn; [reflexivity|].
  destruct (String.eqb i id); cbn; [reflexivity|by rewrite IH].
Qed.

(** A new construct goes last, under an id the scope did not have, and
    can be found there afterwards. *)
Lemma construct_ok id c s r s' :
  construct id c s = Ok r s' →
  r = id ∧ children s' = (children s ++ [(id, c)])%list ∧
  (id ∉ (children s).*1) ∧ find id (children s') = Some c ∧
  lookups s' = lookups s.
Proof.
  unfold construct. destruct (find id (children s)) eqn:E; [discriminate|].
  intros [= <- <-]. cbn.
  repeat split; auto using find_None_fresh, find_fresh.
Qed.

(** Construct ids stay unique. *)
Lemma construct_NoDup id c s r s' :
  NoDup (children s).*1 → construct id c s = Ok r s' →
  NoDup (children s').*1.
Proof.
  intros Hnd (_ & -> & Hfresh & _)%construct_ok.
  rewrite fmap_app. apply NoDup_app. split; [exact Hnd|].
  split; [|apply NoDup_singleton].
  intros x Hx ->%list_elem_of_singleton. contradiction.
Qed.

Lemma mutate_NoDup id f s r s' :
  NoDup (children s).*1 → mutate id f s = Ok r s' →
  NoDup (children s').*1.
Proof.
  unfold mutate. intros Hnd.
  destruct (find id (children s)); [|discriminate].
  destruct (f c); [|discriminate].
  intros [= _ <-]. cbn. by rewrite replace_ids.
Qed.

(** ** Credentials *)

(** C1, as worded, fails: in the per-request stack the container's plain
    environment holds three values, not two; [ATLASSIAN_OAUTH_ENABLE] comes
    with the two base URLs. *)
Lemma per_request_environment_not_two :
  ¬ perRequestClaim AlbVariant ∅.
Proof.
  intros H. destruct (H eq_refl) as (spec & Hr & _ & Hc).
  apply resolve_inv in Hr. subst spec.
  remember (containersOf (specification AlbVariant (configOf ∅))) as cs eqn:E.
  vm_compute in E. subst cs.
  destruct (Hc _ (list_elem_of_here _ _)) as (env & He & Hl & _).
  apply (inj Some) in He. subst env.
  discriminate Hl.
Qed.

(** C1, amended: for every context, the per-request stack resolves to a
    specification with no secret and no grant to any role, whose container
    takes nothing from a secret and has exactly three plain environment
    variables: the flag [ATLASSIAN_OAUTH_ENABLE] and the Jira and Confluence
    base URLs. *)
Theorem per_request_no_secret v ctx :
  authMode v = per_request_oauth →
  ∃ spec, resolve v ctx = Some spec ∧
    secretsOf spec = [] ∧
    flat_map (fun r => iam.grants r.2) (rolesOf spec) = [] ∧
    map (fun c => (ecs.secrets c, ecs.environment c)) (containersOf spec) =
      [ (None,
         Some [ ("ATLASSIAN_OAUTH_ENABLE", "true");
                ("JIRA_URL", "https://cloudgeometry.atlassian.net");
                ("CONFLUENCE_URL", "https://cloudgeometry.atlassian.net/wiki") ]) ].
Proof.
  intros Hv. exists (specification v (configOf ctx)).
  split; [apply resolve_specification|].
  destruct v; [discriminate Hv|]. clear Hv.
  config_cases ctx. intros [[|a s]|] [c|]; vm_compute; auto.
Qed.

Lemma per_request_no_secret_witness :
  authMode AlbVariant = per_request_oauth ∧
  ∃ spec, resolve AlbVariant (<["allowedCidr" := "10.2.0.0/16"]> ∅) = Some spec ∧
    secretsOf spec = [] ∧
    flat_map (fun r => iam.grants r.2) (rolesOf spec) = [] ∧
    map (fun c => (ecs.secrets c, ecs.environment c)) (containersOf spec) =
      [ (None,
         Some [ ("ATLASSIAN_OAUTH_ENABLE", "true");
                ("JIRA_URL", "https://cloudgeometry.atlassian.net");
                ("CONFLUENCE_URL", "https://cloudgeometry.atlassian.net/wiki") ]) ].
Proof.
  split; [reflexivity|].
  apply (per_request_no_secret AlbVariant (<["allowedCidr" := "10.2.0.0/16"]> ∅)).
  reflexivity.
Defined.

(** C2: for every context, the shared-credentials stack resolves to a
    specification with exactly one secret, seeded with the placeholder
    values: its template is the JSON text written out below, whose members
    are the six placeholder pairs; the roles that may read it are exactly the
    execution roles of the task definitions, the task role holds no grant at
    all, and every secret the container is given comes from that one
    secret. *)
Theorem shared_credentials_one_secret v ctx :
  authMode v = shared_credentials →
  ∃ spec id secret, resolve v ctx = Some spec ∧
    secretsOf spec = [(id, secret)] ∧
    secretsmanager.secretStringTemplate
      (secretsmanager.generateSecretString secret) =
      JS.JSON_stringify
        [ ("JIRA_URL", "https://your-domain.atlassian.net");
          ("JIRA_USERNAME", "user@company.com");
          ("JIRA_API_TOKEN", "CHANGE_ME");
          ("CONFLUENCE_URL", "https://your-domain.atlassian.net/wiki");
          ("CONFLUENCE_USERNAME", "user@company.com");
          ("CONFLUENCE_API_TOKEN", "CHANGE_ME") ] ∧
    secretsmanager.secretStringTemplate
      (secretsmanager.generateSecretString secret) =
      (let q s := String "034"%char (s +:+ String "034"%char EmptyString) in
       "{" +:+ q "JIRA_URL" +:+ ":" +:+ q "https://your-domain.atlassian.net"
       +:+ "," +:+ q "JIRA_USERNAME" +:+ ":" +:+ q "user@company.com"
       +:+ "," +:+ q "JIRA_API_TOKEN" +:+ ":" +:+ q "CHANGE_ME"
       +:+ "," +:+ q "CONFLUENCE_URL" +:+ ":"
       +:+ q "https://your-domain.atlassian.net/wiki"
       +:+ "," +:+ q "CONFLUENCE_USERNAME" +:+ ":" +:+ q "user@company.com"
       +:+ "," +:+ q "CONFLUENCE_API_TOKEN" +:+ ":" +:+ q "CHANGE_ME"
       +:+ "}") ∧
    JSONText.parseObject
      (secretsmanager.secretStringTemplate
         (secretsmanager.generateSecretString secret)) =
      Some [ ("JIRA_URL", "https://your-domain.atlassian.net");
             ("JIRA_USERNAME", "user@company.com");
             ("JIRA_API_TOKEN", "CHANGE_ME");
             ("CONFLUENCE_URL", "https://your-domain.atlassian.net/wiki");
             ("CONFLUENCE_USERNAME", "user@company.com");
             ("CONFLUENCE_API_TOKEN", "CHANGE_ME") ] ∧
    readersOf spec id = executionRolesOf spec ∧
    executionRolesOf spec = ["TaskExecutionRole"] ∧
    taskRolesOf spec = ["TaskRole"] ∧
    flat_map (grantsOf spec) (taskRolesOf spec) = [] ∧
    flat_map (grantsOf spec) (executionRolesOf spec) = [iam.GrantRead id] ∧
    flat_map (fun c => match ecs.secrets c with
                       | Some l => map (fun kv => match kv.2 with
                                                  | ecs.fromSecretsManager s _ => s
                                                  end) l
                       | None => []
                       end) (containersOf spec) = replicate 6 id.
Proof.
  intros Hv.
  destruct v; [clear Hv|discriminate Hv].
  assert (Hs := resolve_specification PrivateVariant ctx).
  revert Hs. config_cases ctx. intros [[|a s]|] [c|] Hs;
    (eexists; exists "AtlassianCredentials"; eexists;
     split; [exact Hs|];
     split; [vm_compute; reflexivity|];
     vm_compute; repeat split).
Qed.

Lemma shared_credentials_one_secret_witness :
  authMode PrivateVariant = shared_credentials ∧
  ∃ spec id secret,
    resolve PrivateVariant (<["existingVpcName" := "shared-vpc"]> ∅) = Some spec ∧
    secretsOf spec = [(id, secret)] ∧
    readersOf spec id = ["TaskExecutionRole"].
Proof.
  split; [reflexivity|].
  destruct (shared_credentials_one_secret PrivateVariant
              (<["existingVpcName" := "shared-vpc"]> ∅) eq_refl)
    as (spec & id & secret & Hr & Hs & _ & _ & _ & Hread & Hexec & _).
  exists spec, id, secret. rewrite Hread, Hexec. auto.
Defined.

(** ** Network *)

(** C3, as worded, fails: [existingVpcName] set to the empty string is
    falsy for [if (existingVpcName)], so the stack creates its own network
    instead of importing one. *)
Lemma empty_vpc_name_creates_network :
  ¬ networkClaim PrivateVariant (<["existingVpcName" := EmptyString]> ∅).
Proof.
  intros (spec & Hr & H).
  apply resolve_inv in Hr. subst spec.
  change ((<["existingVpcName" := EmptyString]> ∅ : gmap string string)
            !! "existingVpcName") with (Some EmptyString) in H.
  destruct H as [_ H]. vm_compute in H. discriminate H.
Qed.

(** C3, amended: every context resolves, in both stacks. When
    [existingVpcName] is set to a non-empty string the only network of the
    specification is the imported one of that name, no network is created,
    and every construct that names its network names the imported one; no
    check of the name is made. When [existingVpcName] is absent or empty
    exactly one network is created: block 10.1.0.0/16, at most two
    availability zones, one NAT gateway, and the two subnet tiers public and
    private-with-egress. *)
Theorem network_topology v ctx :
  ∃ spec, resolve v ctx = Some spec ∧
    if JS.truthy (ctx !! "existingVpcName")
    then
      networksOf spec =
        [("ImportedVpc", Imported (narrowed (ctx !! "existingVpcName")))] ∧
      createdVpcsOf spec = [] ∧
      remove_dups (vpcReferencesOf spec) = ["ImportedVpc"]
    else
      ∃ p, createdVpcsOf spec = [("McpVpc", p)] ∧
        networksOf spec =
          [("McpVpc", Created "10.1.0.0/16"
                        [ec2.PUBLIC; ec2.PRIVATE_WITH_EGRESS])] ∧
        ec2.maxAzs p = 2 ∧ ec2.natGateways p = 1 ∧
        map ec2.cidrMask (ec2.subnetConfiguration p) = [24; 24] ∧
        remove_dups (vpcReferencesOf spec) = ["McpVpc"].
Proof.
  exists (specification v (configOf ctx)).
  split; [apply resolve_specification|].
  destruct v; config_cases ctx; intros [[|a s]|] [c|];
    cbn [JS.truthy narrowed];
    try (eexists; split; [vm_compute; reflexivity|]);
    vm_compute; repeat split.
Qed.

(** ** Exposure *)

(** C4, as worded, fails: the load balancer's health check and the
    container's own both ask for the path [/healthz]. *)
Lemma load_balancer_probes_container_path :
  ¬ exposureClaim AlbVariant ∅.
Proof.
  intros (spec & Hr & H).
  apply resolve_inv in Hr. subst spec.
  cbn [exposureMode] in H.
  destruct H as (l & tid & tg & c & pm & Hl & Htg & Hc & _ & _ & _ & _ & _ & Hp).
  vm_compute in Hl. apply (inj (λ x, [x])) in Hl. subst l.
  vm_compute in Htg. injection Htg as _ <-.
  vm_compute in Hc. apply (inj (λ x, [x])) in Hc. subst c.
  apply Hp. vm_compute. reflexivity.
Qed.

(** C4, amended: for every context the load-balanced stack has one
    application load balancer with one HTTP listener on port 80, which is not
    the container port; its one target group forwards to the service on the
    container port 9000 and has a health check of its own (HTTP, every 30
    seconds, thresholds 2 and 3) on the path [/healthz], the path that the
    container's own health-check command also requests. The private stack
    has no load balancer and no listener. *)
Theorem exposure_listener v ctx :
  ∃ spec, resolve v ctx = Some spec ∧
    match exposureMode v with
    | public_alb =>
        ∃ lb l tg c pm,
          loadBalancersOf spec = [("McpAlb", lb)] ∧
          elbv2.listeners lb = [("McpListener", l)] ∧
          elbv2.targetGroups l = [("McpTargets", tg)] ∧
          containersOf spec = [c] ∧ ecs.portMappings c = [pm] ∧
          elbv2.port l = 80 ∧ elbv2.protocol l = elbv2.HTTP ∧
          elbv2.port l ≠ ecs.containerPort pm ∧
          elbv2.targetPort tg = ecs.containerPort pm ∧
          ecs.containerPort pm = 9000 ∧
          elbv2.targets tg = map fst (servicesOf spec) ∧
          elbv2.healthCheck tg =
            {| elbv2.path := "/healthz";
               elbv2.interval := seconds 30;
               elbv2.healthyThresholdCount := 2;
               elbv2.unhealthyThresholdCount := 3 |} ∧
          probePath (ecs.healthCheck c)
            = Some (elbv2.path (elbv2.healthCheck tg))
    | private_only =>
        loadBalancersOf spec = [] ∧ listenersOf spec = []
    end.
Proof.
  exists (specification v (configOf ctx)).
  split; [apply resolve_specification|].
  destruct v; cbn [exposureMode]; config_cases ctx; intros [[|a s]|] [c|];
    try (vm_compute; split; reflexivity);
    (do 5 eexists; vm_compute; repeat split; discriminate).
Qed.

(** ** Failure policy *)

(** C5: for every context, both stacks resolve to a specification with
    one service whose deployment circuit breaker is enabled with rollback;
    under that setting a health-check timeout while applying takes the
    deployment to the terminal state [RolledBack], not to [Aborted], and not
    back to [Applying]. *)
Theorem circuit_breaker_rolls_back v ctx :
  ∃ spec svc, resolve v ctx = Some spec ∧
    servicesOf spec = [("McpService", svc)] ∧
    ecs.circuitBreaker svc =
      Some {| ecs.enable := true; ecs.rollback := true |} ∧
    backendStep (ecs.circuitBreaker svc) Applying HealthCheckTimeout
      = RolledBack ∧
    ∀ e, backendStep (ecs.circuitBreaker svc) RolledBack e = RolledBack.
Proof.
  assert (Hs := resolve_specification v ctx). revert Hs.
  destruct v; config_cases ctx; intros [[|a s]|] [c|] Hs;
    (do 2 eexists; split; [exact Hs|];
     split; [vm_compute; reflexivity|];
     repeat split; intros []; reflexivity).
Qed.

(** ** Purity *)




(** ** Outputs *)

(** C7: for every context, the outputs of the shared-credentials stack
    are exactly four: the ARN token of the one secret, the literal endpoint
    [atlassian.mcp.internal:9000], which is the Cloud Map name of the service,
    the namespace of its cluster and the container port, the URI token of the
    one repository and the name token of the one cluster. No fragment of an
    output shows a credential: none is text holding a seeded value, and the
    only token of the secret is its ARN. *)
Theorem shared_credentials_outputs v ctx :
  authMode v = shared_credentials →
  ∃ spec secret repository cluster,
    resolve v ctx = Some spec ∧
    map fst (secretsOf spec) = [secret] ∧
    map fst (repositoriesOf spec) = [repository] ∧
    map fst (clustersOf spec) = [cluster] ∧
    outputsOf spec =
      [ ("SecretArn", [Tok secret "secretArn"]);
        ("ServiceDiscoveryEndpoint", [Lit "atlassian.mcp.internal:9000"]);
        ("EcrRepoUri", [Tok repository "repositoryUri"]);
        ("ClusterName", [Tok cluster "clusterName"]) ] ∧
    discoveryEndpointsOf spec = ["atlassian.mcp.internal:9000"] ∧
    forallb (fun o => forallb (fun f => negb (showsCredential spec f)) o.2)
            (outputsOf spec) = true.
Proof.
  intros Hv.
  destruct v; [clear Hv|discriminate Hv].
  assert (Hs := resolve_specification PrivateVariant ctx).
  revert Hs. config_cases ctx. intros [[|a s]|] [c|] Hs;
    (do 4 eexists; split; [exact Hs|]; vm_compute; repeat split).
Qed.

Lemma shared_credentials_outputs_witness :
  authMode PrivateVariant = shared_credentials ∧
  ∃ spec,
    resolve PrivateVariant
      (<["existingVpcName" := "shared-vpc"]>
         (<["allowedCidr" := "10.2.0.0/16"]> ∅)) = Some spec ∧
    map fst (outputsOf spec) =
      ["SecretArn"; "ServiceDiscoveryEndpoint"; "EcrRepoUri"; "ClusterName"].
Proof.
  split; [reflexivity|].
  destruct (shared_credentials_outputs PrivateVariant
              (<["existingVpcName" := "shared-vpc"]>
                 (<["allowedCidr" := "10.2.0.0/16"]> ∅)) eq_refl)
    as (spec & secret & repository & cluster & Hr & _ & _ & _ & Ho & _).
  exists spec. rewrite Ho. auto.
Defined.

(** ** The two copies *)

(** C8, as worded, fails: the copies differ outside what the modes bring;
    the repository is retained in one and destroyed in the other. *)
Lemma copies_have_drifted :
  ¬ sameResolverClaim ∅.
Proof.
  intros (p & a & Hp & Ha & _ & H & _).
  apply resolve_inv in Hp. apply resolve_inv in Ha. subst p a.
  vm_compute in H. discriminate H.
Qed.

(** C8, amended: for every context both stacks resolve, and without what
    the exposure and credential modes bring they are the same specification
    up to four settings, in which they differ: the repository's removal
    policy ([RETAIN] in the private stack, [DESTROY] in the load-balanced
    one), the container command (transport [http] against [streamable-http]
    with a host), the path of the container's health check ([/mcp] against
    [/healthz]) and the description of the security group. *)
Theorem copies_agree_up_to_drift ctx :
  ∃ p a, resolve PrivateVariant ctx = Some p ∧
    resolve AlbVariant ctx = Some a ∧
    withoutDrift (withoutModes p) = withoutDrift (withoutModes a) ∧
    removalPoliciesOf p = [RETAIN] ∧ removalPoliciesOf a = [DESTROY] ∧
    commandsOf p = [["--transport"; "http"; "--port"; "9000"]] ∧
    commandsOf a =
      [["--transport"; "streamable-http"; "--host"; "0.0.0.0";
        "--port"; "9000"]] ∧
    probePathsOf p = [Some "/mcp"] ∧ probePathsOf a = [Some "/healthz"] ∧
    groupDescriptionsOf p ≠ groupDescriptionsOf a.
Proof.
  exists (specification PrivateVariant (configOf ctx)),
         (specification AlbVariant (configOf ctx)).
  split; [apply resolve_specification|].
  split; [apply resolve_specification|].
  config_cases ctx; intros [[|n s]|] [c|];
    vm_compute; repeat split; discriminate.
Qed.

(** ** Placement and reachability *)

(** C9: for every context, both stacks resolve to one service, placed in
    the private-with-egress subnets with no public IP asked for. The private
    stack has nothing internet-facing and only address-block ingress rules.
    In the load-balanced stack the load balancer is the only internet-facing
    construct, and among the ingress rules that guard the service exactly one
    has it as peer, on TCP port 9000. Every rule that guards the service is
    on TCP port 9000. *)
Theorem tasks_in_private_subnets v ctx :
  ∃ spec svc, resolve v ctx = Some spec ∧
    servicesOf spec = [("McpService", svc)] ∧
    ec2.selectSubnetType (ecs.vpcSubnets svc) = ec2.PRIVATE_WITH_EGRESS ∧
    ecs.assignPublicIp svc = None ∧
    internetFacingOf spec = map fst (loadBalancersOf spec) ∧
    map fst (loadBalancersOf spec) =
      match exposureMode v with
      | public_alb => ["McpAlb"]
      | private_only => []
      end ∧
    map (fun r => (ec2.peer r, ec2.connection r))
        (List.filter (fun r => negb (isCidrRule r)) (ingressOf spec svc)) =
      match exposureMode v with
      | public_alb => [(ec2.connectable "McpAlb", ec2.tcp 9000)]
      | private_only => []
      end ∧
    forallb (fun r => match ec2.connection r with
                      | ec2.tcp p => p =? 9000
                      end) (ingressOf spec svc) = true.
Proof.
  assert (Hs := resolve_specification v ctx). revert Hs.
  destruct v; config_cases ctx; intros [[|a s]|] [c|] Hs;
    (do 2 eexists; split; [exact Hs|];
     split; [vm_compute; reflexivity|];
     vm_compute; repeat split).
Qed.

(** ** The default ingress block *)

(** Two blocks of the same prefix length whose prefixes differ share no
    address. *)
Lemma inCidr_disjoint address base1 base2 len :
  N.shiftr base1 (32 - len) ≠ N.shiftr base2 (32 - len) →
  inCidr address (base1, len) = true →
  inCidr address (base2, len) = false.
Proof.
  unfold inCidr. cbn [fst snd].
  intros Hne H%N.eqb_eq. apply N.eqb_neq. congruence.
Qed.

Lemma blocks_10_0_and_10_1_disjoint address :
  inCidr address (167837696, 16) = true →
  inCidr address (167772160, 16) = false.
Proof. apply inCidr_disjoint. vm_compute. discriminate. Qed.

(** C10: in the private stack, when [existingVpcName] is absent and
    [allowedCidr] is not supplied, the one network created has block
    10.1.0.0/16 and the one ingress rule of the specification has the block
    10.0.0.0/16 as peer; no address lies in both blocks, so no ingress rule
    admits a packet whose source address is in the created network, on any
    port. *)
Theorem default_ingress_outside_created_vpc ctx :
  ctx !! "existingVpcName" = None →
  ctx !! "allowedCidr" = None →
  ∃ spec p block allowed,
    resolve PrivateVariant ctx = Some spec ∧
    createdVpcsOf spec = [("McpVpc", p)] ∧
    ec2.ipAddresses p = "10.1.0.0/16" ∧
    parseCidr (ec2.ipAddresses p) = Some block ∧
    map ec2.peer (allIngressOf spec) = [ec2.ipv4 "10.0.0.0/16"] ∧
    parseCidr "10.0.0.0/16" = Some allowed ∧
    (∀ address, inCidr address block = true →
       inCidr address allowed = false) ∧
    ∀ address port r,
      inCidr address block = true →
      r ∈ allIngressOf spec →
      admitsAddress r address port = false.
Proof.
  intros He Ha.
  assert (Hs := resolve_specification PrivateVariant ctx).
  unfold configOf in Hs. rewrite He, Ha in Hs.
  eexists. eexists. exists (167837696, 16), (167772160, 16).
  split; [exact Hs|].
  split; [vm_compute; reflexivity|].
  split; [reflexivity|].
  split; [vm_compute; reflexivity|].
  split; [vm_compute; reflexivity|].
  split; [vm_compute; reflexivity|].
  split; [exact blocks_10_0_and_10_1_disjoint|].
  intros address port r Hin Hr.
  remember (allIngressOf _) as rules eqn:E in Hr.
  vm_compute in E. subst rules.
  apply list_elem_of_singleton in Hr. subst r.
  unfold admitsAddress. cbn [ec2.peer ec2.connection].
  change (parseCidr "10.0.0.0/16") with (Some (167772160, 16)).
  cbv beta iota.
  rewrite (blocks_10_0_and_10_1_disjoint _ Hin). reflexivity.
Qed.

Lemma default_ingress_outside_created_vpc_witness :
  (∅ : gmap string string) !! "existingVpcName" = None ∧
  (∅ : gmap string string) !! "allowedCidr" = None ∧
  ∃ spec block,
    resolve PrivateVariant ∅ = Some spec ∧
    parseCidr "10.1.0.0/16" = Some block ∧
    ∀ address port r,
      inCidr address block = true →
      r ∈ allIngressOf spec →
      admitsAddress r address port = false.
Proof.
  assert (He : (∅ : gmap string string) !! "existingVpcName" = None)
    by reflexivity.
  assert (Ha : (∅ : gmap string string) !! "allowedCidr" = None)
    by reflexivity.
  split; [exact He|]. split; [exact Ha|].
  destruct (default_ingress_outside_created_vpc ∅ He Ha)
    as (spec & p & block & allowed & Hr & _ & Hp & Hb & _ & _ & _ & H).
  exists spec, block. rewrite <- Hp. auto.
Defined.

(** ** The address block of the ingress rule *)

(** X1: in both stacks, for every context whose address block in force
    the library accepts, the security group of the service has exactly one
    address-block rule: the value of the context key [allowedCidr] as given,
    10.0.0.0/16 when the key is missing, on TCP port 9000. The only other
    address-block rule of a stack is the one the open listener puts on the
    load balancer's own group in the load-balanced stack: 0.0.0.0/0 on TCP
    port 80. *)
Theorem ingress_block_from_context v ctx :
  peerIpv4Accepts (default "10.0.0.0/16" (ctx !! "allowedCidr")) = true →
  ∃ spec svc, resolve v ctx = Some spec ∧
    servicesOf spec = [("McpService", svc)] ∧
    map (fun r => (ec2.peer r, ec2.connection r))
        (List.filter isCidrRule (ingressOf spec svc)) =
      [ (ec2.ipv4 (default "10.0.0.0/16" (ctx !! "allowedCidr")),
         ec2.tcp 9000) ] ∧
    map (fun r => (ec2.peer r, ec2.connection r))
        (List.filter isCidrRule (allIngressOf spec)) =
      (ec2.ipv4 (default "10.0.0.0/16" (ctx !! "allowedCidr")), ec2.tcp 9000)
      :: match exposureMode v with
         | public_alb => [(ec2.ipv4 "0.0.0.0/0", ec2.tcp 80)]
         | private_only => []
         end.
Proof.
  intros _.
  assert (Hs := resolve_specification v ctx). revert Hs.
  destruct v; config_cases ctx; intros [[|a s]|] [c|] Hs;
    (do 2 eexists; split; [exact Hs|];
     split; [vm_compute; reflexivity|];
     vm_compute; split; reflexivity).
Qed.

Lemma ingress_block_from_context_witness :
  peerIpv4Accepts
    (default "10.0.0.0/16"
       ((<["allowedCidr" := "10.2.0.0/16"]> ∅ : gmap string string)
          !! "allowedCidr")) = true ∧
  ∃ spec,
    resolve AlbVariant (<["allowedCidr" := "10.2.0.0/16"]> ∅) = Some spec ∧
    map (fun r => (ec2.peer r, ec2.connection r))
        (List.filter isCidrRule (allIngressOf spec)) =
      [ (ec2.ipv4 "10.2.0.0/16", ec2.tcp 9000);
        (ec2.ipv4 "0.0.0.0/0", ec2.tcp 80) ].
Proof.
  assert (H : peerIpv4Accepts
                (default "10.0.0.0/16"
                   ((<["allowedCidr" := "10.2.0.0/16"]> ∅ : gmap string string)
                      !! "allowedCidr")) = true)
    by (vm_compute; reflexivity).
  split; [exact H|].
  destruct (ingress_block_from_context AlbVariant
              (<["allowedCidr" := "10.2.0.0/16"]> ∅) H)
    as (spec & svc & Hr & _ & _ & Ha).
  exists spec. split; [exact Hr|exact Ha].
Defined.



(** ** What each context key reaches *)



(** X4: [existingVpcName] reaches nothing but the network: two contexts
    that agree on [allowedCidr] resolve to specifications that are equal once
    the network construct is taken out and every mention of it blanked. *)
Theorem vpc_name_reaches_network_only v ctx1 ctx2 :
  ctx1 !! "allowedCidr" = ctx2 !! "allowedCidr" →
  ∃ s1 s2, resolve v ctx1 = Some s1 ∧ resolve v ctx2 = Some s2 ∧
    withoutNetwork s1 = withoutNetwork s2.
Proof.
  intros H.
  exists (specification v (configOf ctx1)), (specification v (configOf ctx2)).
  split; [apply resolve_specification|].
  split; [apply resolve_specification|].
  unfold configOf. rewrite H.
  generalize (ctx1 !! "existingVpcName") (ctx2 !! "existingVpcName")
             (ctx2 !! "allowedCidr").
  destruct v; intros [[|a1 s1]|] [[|a2 s2]|] [c|]; vm_compute; reflexivity.
Qed.

Lemma vpc_name_reaches_network_only_witness :
  (<["existingVpcName" := "shared-vpc"]> ∅ : gmap string string)
     !! "allowedCidr"
   = (∅ : gmap string string) !! "allowedCidr" ∧
  ∃ s1 s2,
    resolve AlbVariant (<["existingVpcName" := "shared-vpc"]> ∅) = Some s1 ∧
    resolve AlbVariant ∅ = Some s2 ∧
    withoutNetwork s1 = withoutNetwork s2.
Proof.
  assert (H : (<["existingVpcName" := "shared-vpc"]> ∅ : gmap string string)
                !! "allowedCidr"
              = (∅ : gmap string string) !! "allowedCidr") by reflexivity.
  split; [exact H|].
  exact (vpc_name_reaches_network_only AlbVariant _ _ H).
Defined.

(** ** References between constructs *)

(** X5: in both stacks and for every context, every reference a
    construct makes (network, roles, image, log group, secret, cluster, task
    definition, security groups, load-balancer targets, rule peers, output
    tokens) names a construct of the specification, of the kind the place
    asks for. *)
Theorem references_resolve v ctx :
  ∃ spec, resolve v ctx = Some spec ∧
    referencesIn spec ≠ [] ∧
    forallb (resolvesIn spec) (referencesIn spec) = true.
Proof.
  exists (specification v (configOf ctx)).
  split; [apply resolve_specification|].
  destruct v; config_cases ctx; intros [[|a s]|] [c|];
    vm_compute; split; (discriminate || reflexivity).
Qed.

(** X6: in both stacks and for every context, the construct ids of the
    scope are pairwise distinct, so no [new X(this, id, ...)] is refused. *)
Theorem construct_ids_distinct v ctx :
  ∃ spec, resolve v ctx = Some spec ∧ NoDup spec.*1.
Proof.
  exists (specification v (configOf ctx)).
  split; [apply resolve_specification|].
  destruct v; config_cases ctx; intros [[|a s]|] [c|];
    match goal with
    | |- NoDup ?ids =>
        let l := fresh "ids" in
        remember ids as l eqn:E; vm_compute in E; subst l
    end;
    apply (bool_decide_unpack _); vm_compute; reflexivity.
Qed.

(** X7: in both stacks and for every context the port is one and the
    same everywhere: the container port of the one container is the value of
    its [--port] argument, the port of the [localhost] URL its health check
    requests, the port of every ingress rule of the service's security group
    and the port every target group forwards to. *)
Theorem one_port_everywhere v ctx :
  ∃ spec svc c pm, resolve v ctx = Some spec ∧
    servicesOf spec = [("McpService", svc)] ∧
    containersOf spec = [c] ∧ ecs.portMappings c = [pm] ∧
    (argumentAfter "--port" (ecs.containerCommand c) ≫= parseDecimal)
      = Some (ecs.containerPort pm) ∧
    (last (ecs.command (ecs.healthCheck c)) ≫= urlHostPort)
      = Some ("localhost", ecs.containerPort pm) ∧
    ingressOf spec svc ≠ [] ∧
    forallb (fun r => match ec2.connection r with
                      | ec2.tcp p => p =? ecs.containerPort pm
                      end) (ingressOf spec svc) = true ∧
    forallb (N.eqb (ecs.containerPort pm)) (targetPortsOf spec) = true.
Proof.
  assert (Hs := resolve_specification v ctx). revert Hs.
  destruct v; config_cases ctx; intros [[|a s]|] [c|] Hs;
    (do 4 eexists; split; [exact Hs|];
     split; [vm_compute; reflexivity|];
     split; [vm_compute; reflexivity|];
     split; [vm_compute; reflexivity|];
     vm_compute; repeat split; discriminate).
Qed.

(** X11: in both stacks and for every context, the service registered in
    Cloud Map sits in a cluster of the specification that has a default
    namespace, and the namespace is in the cluster's network. *)
Theorem cloud_map_has_namespace v ctx :
  ∃ spec, resolve v ctx = Some spec ∧
    map (fun s => ecs.cloudMap s.2) (servicesOf spec)
      = [Some {| ecs.cloudMapName := "atlassian" |}] ∧
    registrationsHaveNamespace spec = true.
Proof.
  exists (specification v (configOf ctx)).
  split; [apply resolve_specification|].
  destruct v; config_cases ctx; intros [[|a s]|] [c|];
    vm_compute; split; reflexivity.
Qed.

(** X10: the description texts of the load-balanced stack are ASCII
    only, for every context; in the private stack the description of the
    security group is not. *)
Theorem descriptions_ascii ctx :
  ∃ p a, resolve PrivateVariant ctx = Some p ∧
    resolve AlbVariant ctx = Some a ∧
    descriptionsOf a ≠ [] ∧
    forallb isAscii (descriptionsOf a) = true ∧
    map isAscii (groupDescriptionsOf p) = [false].
Proof.
  exists (specification PrivateVariant (configOf ctx)),
         (specification AlbVariant (configOf ctx)).
  split; [apply resolve_specification|].
  split; [apply resolve_specification|].
  config_cases ctx; intros [[|n s]|] [c|];
    vm_compute; repeat split; discriminate.
Qed.

(** ** The seeded secret and what the container reads *)

(** X9: in the private stack and for every context, the template of the
    one secret reads back as a JSON object whose keys, in order, are the
    names of the secrets the container is given; each of them reads, from
    that secret, the key of its own name, and the key is there. *)
Theorem container_secrets_are_template_keys ctx :
  ∃ spec id secret c wanted kvs,
    resolve PrivateVariant ctx = Some spec ∧
    secretsOf spec = [(id, secret)] ∧
    containersOf spec = [c] ∧
    ecs.secrets c = Some wanted ∧
    JSONText.parseObject
      (secretsmanager.secretStringTemplate
         (secretsmanager.generateSecretString secret)) = Some kvs ∧
    wanted.*1 = kvs.*1 ∧
    forallb (fun w =>
               match w.2 with
               | ecs.fromSecretsManager s field =>
                   String.eqb s id && String.eqb field w.1 &&
                   match JSONText.lookupMember field kvs with
                   | Some _ => true
                   | None => false
                   end
               end) wanted = true.
Proof.
  assert (Hs := resolve_specification PrivateVariant ctx). revert Hs.
  config_cases ctx; intros [[|a s]|] [c|] Hs;
    (do 6 eexists; split; [exact Hs|];
     split; [vm_compute; reflexivity|];
     split; [vm_compute; reflexivity|];
     split; [vm_compute; reflexivity|];
     split; [vm_compute; reflexivity|];
     vm_compute; split; reflexivity).
Qed.

(** ** The load balancer and its targets *)

(** X12: in the load-balanced stack and for every context, the one
    target group forwards to the service of the stack, and the security
    group of that service lets the load balancer in on the very port the
    group forwards to. *)
Theorem load_balancer_reaches_targets ctx :
  ∃ spec, resolve AlbVariant ctx = Some spec ∧
    flat_map (fun l => flat_map (fun tg => elbv2.targets tg.2)
                                (elbv2.targetGroups l))
             (listenersOf spec) = (servicesOf spec).*1 ∧
    (servicesOf spec).*1 = ["McpService"] ∧
    targetsReachable spec = true.
Proof.
  exists (specification AlbVariant (configOf ctx)).
  split; [apply resolve_specification|].
  config_cases ctx; intros [[|a s]|] [c|]; vm_compute; repeat split.
Qed.
